(** * Physics assistant: the kinematics solvers and the calculation history

    Shallow embedding of [HighSchool_Physic_Assistant_Improve.py].

    - Python's [float] is IEEE binary64.  The solvers are written once over
      an arithmetic interface ([Arith], [PyFloatOps]); [binary64] (Rocq's
      primitive floats) is the arithmetic the program runs on.  The one
      operation that IEEE 754 does not fix is the C library's [pow], which
      [x ** 2] calls: it is a parameter ([Libm]) of the binary64 instance.
    - A quantity the user skipped is [None]; [self.inputs] is a record of
      optional numbers, [self.results] an insertion-ordered dictionary.
    - Exceptions are values of [PyExn]; a computation returns [Ok v] or
      [Raise e].  [try ... except ZeroDivisionError] is [except_zero_division].
    - The history in memory is a Python value ([PyObj]): the list the
      program builds, or whatever [json.load] read from the history file.
      The [json] module ([Json]) and the built-ins on strings and numbers
      ([PyBuiltins]) are parameters.
    - The interactive program is a state monad over the console: the lines
      to be read, the clock, the files and the output. *)

From Stdlib Require Import String Ascii List Bool Arith ZArith QArith Qabs.
From Stdlib Require Import Lia Lqa PrimFloat.
Import ListNotations.

#[local] Set Warnings "-inexact-float,-register-all".

Close Scope Q_scope.
Local Open Scope string_scope.

(** ** Exceptions *)

Inductive PyExn : Type :=
| ValueError (msg : string)
| ZeroDivisionError
| OverflowError
| TypeError.

Inductive Exc (A : Type) : Type :=
| Ok (a : A)
| Raise (e : PyExn).

Arguments Ok {A} a.
Arguments Raise {A} e.

Definition bind {A B : Type} (c : Exc A) (k : A -> Exc B) : Exc B :=
  match c with
  | Ok a => k a
  | Raise e => Raise e
  end.

Notation "'let*' x ':=' c 'in' k" := (bind c (fun x => k))
  (at level 61, x name, c at next level, right associativity).

(** [try: body / except ZeroDivisionError: raise ValueError(msg)] *)
Definition except_zero_division {A : Type} (body : Exc A) (msg : string) : Exc A :=
  match body with
  | Raise ZeroDivisionError => Raise (ValueError msg)
  | other => other
  end.

(** The messages of the [ValueError]s the solvers raise. *)
Definition msg_exactly_two : string := "You must provide exactly 2 values!".
Definition msg_insufficient : string :=
  "Insufficient data or invalid combination of inputs!".
Definition msg_time_zero : string := "Time cannot be zero!".
Definition msg_speed_zero : string := "Speed cannot be zero!".
Definition msg_acceleration_zero : string := "Acceleration cannot be zero!".
Definition msg_distance_zero : string := "Distance cannot be zero!".
Definition msg_negative_root : string :=
  "Cannot calculate square root of negative number!".
Definition msg_cannot_divide : string := "Cannot divide by zero!".
Definition msg_division_by_zero : string := "Division by zero error!".
Definition msg_math_domain : string := "math domain error".

(** The two error kinds of the specification.  Both are [ValueError] in the
    program; they differ by message: a wrong count of known quantities or no
    matching branch is a validation error, every other [ValueError] a domain
    error. *)
Definition is_validation_error (e : PyExn) : bool :=
  match e with
  | ValueError m => String.eqb m msg_exactly_two || String.eqb m msg_insufficient
  | _ => false
  end.

Definition is_domain_error (e : PyExn) : bool :=
  match e with
  | ValueError m => negb (String.eqb m msg_exactly_two || String.eqb m msg_insufficient)
  | _ => false
  end.

(** ** Arithmetic *)

(** Field operations and comparisons, as Python's [+ - * /], [==] and [<]
    on numbers.  [fdiv] is the quotient for a non-zero divisor; division by
    zero is raised by [py_div] below before [fdiv] is reached. *)
Class Arith (F : Type) : Type := {
  f0 : F;
  fadd : F -> F -> F;
  fsub : F -> F -> F;
  fmul : F -> F -> F;
  fdiv : F -> F -> F;
  feqb : F -> F -> bool;
  fltb : F -> F -> bool
}.

(** What the solvers use beyond the field operations: the literals [1],
    [2], [0.5] and [9.8], the negation and the absolute value, the square
    root, the tests for the special values of the floating-point format, and
    the C library's [pow(x, 2.0)]: [fpow2 x] is the value it returns and
    whether it leaves [errno] at [ERANGE]. *)
Class PyFloatOps (F : Type) {A : Arith F} : Type := {
  f1 : F;
  f2 : F;
  fhalf : F;
  fgravity : F;
  fopp : F -> F;
  fabs : F -> F;
  fsqrt : F -> F;
  fis_nan : F -> bool;
  fis_inf : F -> bool;
  fpow2 : F -> F * bool
}.

(** The C library the interpreter is linked with: [libm_pow2 x] is what
    [pow(x, 2.0)] returns and whether it leaves [errno] at [ERANGE].  IEEE 754
    does not require [pow] to be correctly rounded, and the libraries differ
    in the last bit. *)
Class Libm : Type := libm_pow2 : float -> float * bool.

#[export] Instance binary64 : Arith float := {
  f0 := 0%float;
  fadd := PrimFloat.add;
  fsub := PrimFloat.sub;
  fmul := PrimFloat.mul;
  fdiv := PrimFloat.div;
  feqb := PrimFloat.eqb;
  fltb := PrimFloat.ltb
}.

#[export] Instance binary64_ops {L : Libm} : PyFloatOps float := {
  f1 := 1%float;
  f2 := 2%float;
  fhalf := 0.5%float;
  fgravity := 9.8%float;
  fopp := PrimFloat.opp;
  fabs := PrimFloat.abs;
  fsqrt := PrimFloat.sqrt;
  fis_nan := PrimFloat.is_nan;
  fis_inf := PrimFloat.is_infinity;
  fpow2 := libm_pow2
}.

(** A C library whose [pow(x, 2.0)] is the correctly rounded square and
    leaves [errno] alone.  The sample runs below use it, and only at bases
    whose square is a binary64 number (3, 14), lies above the range (1e200)
    or below half the least positive number (1e-200): there every [pow]
    with an error under one unit in the last place returns the same. *)
Definition exact_libm : Libm := fun x => (PrimFloat.mul x x, false).

(** The arithmetic of the sample runs. *)
Definition sample_ops : PyFloatOps float := @binary64_ops exact_libm.


Section PythonArithmetic.
Context {F : Type} {A : Arith F}.

(** [x / y] on floats: [ZeroDivisionError] when [y == 0]. *)
Definition py_div (x y : F) : Exc F :=
  if feqb y f0 then Raise ZeroDivisionError else Ok (fdiv x y).

Context {P : PyFloatOps F}.

(** [_Py_ADJUST_ERANGE1]: an infinite result counts as a range error even
    if [pow] did not report one, and a reported range error with the result
    zero (an underflow) does not count. *)
Definition adjust_erange (ix : F) (erange : bool) : bool :=
  if erange then negb (feqb ix f0) else fis_inf ix.

(** [x ** 2] on a float, as [float_pow] computes it for the exponent 2.0:
    nan for nan; [fabs(x)] for an infinite base; 0.0 for a zero base; a
    negative base is negated, the exponent being an even integer; 1.0 for
    the base 1.0; otherwise the C library's [pow], with [OverflowError] when
    [errno] is [ERANGE] after the adjustment.  ([pow] reports no other error
    for a finite positive base.) *)
Definition py_pow2 (x : F) : Exc F :=
  if fis_nan x then Ok x
  else if fis_inf x then Ok (fabs x)
  else if feqb x f0 then Ok f0
  else
    let iv := if fltb x f0 then fopp x else x in
    if feqb iv f1 then Ok f1
    else
      let (ix, erange) := fpow2 iv in
      if adjust_erange ix erange then Raise OverflowError else Ok ix.

(** [math.sqrt(x)]: [ValueError] when the result is nan and [x] is not,
    that is for [x < 0]. *)
Definition math_sqrt (x : F) : Exc F :=
  let r := fsqrt x in
  if fis_nan r && negb (fis_nan x) then Raise (ValueError msg_math_domain)
  else Ok r.

End PythonArithmetic.

(** ** Dictionaries of results *)

(** A value of [self.results]: a number, or the formula label. *)
Inductive PyVal (F : Type) : Type :=
| VFloat (x : F)
| VStr (s : string).

Arguments VFloat {F} x.
Arguments VStr {F} s.

(** [self.results], in insertion order. *)
Definition Results (F : Type) : Type := list (string * PyVal F).

Fixpoint dict_get {V : Type} (d : list (string * V)) (k : string) : option V :=
  match d with
  | [] => None
  | (k', v) :: d' => if String.eqb k k' then Some v else dict_get d' k
  end.

(** [sum(val is None for val in l)] *)
Fixpoint none_count {F : Type} (l : list (option F)) : nat :=
  match l with
  | [] => 0
  | None :: l' => S (none_count l')
  | Some _ :: l' => none_count l'
  end.

Definition is_none {F : Type} (o : option F) : bool :=
  match o with None => true | Some _ => false end.

Definition is_some {F : Type} (o : option F) : bool := negb (is_none o).

(** Reading a quantity for arithmetic: an operation on [None] is a
    [TypeError]. *)
Definition need {F : Type} (o : option F) : Exc F :=
  match o with Some x => Ok x | None => Raise TypeError end.

(** ** Basic motion, [v = s / t] *)

Module Motion.

Record Inputs (F : Type) : Type := mkInputs {
  speed : option F;
  time : option F;
  distance : option F
}.

Arguments mkInputs {F} _ _ _.
Arguments speed {F} _.
Arguments time {F} _.
Arguments distance {F} _.

Section Calculate.
Context {F : Type} {A : Arith F}.

(** The body of the [try] block.  An arithmetic operation on [None], which
    the count check excludes, is a [TypeError]; with no quantity absent no
    branch is taken. *)
Definition solve (i : Inputs F) : Exc (Results F) :=
  match speed i with
  | None =>
      match time i with
      | Some t =>
          if feqb t f0 then Raise (ValueError msg_time_zero)
          else
            match distance i with
            | Some d => let* v := py_div d t in Ok [("speed", VFloat v)]
            | None => Raise TypeError
            end
      | None => Raise TypeError
      end
  | Some v =>
      match distance i with
      | None =>
          match time i with
          | Some t => Ok [("distance", VFloat (fmul v t))]
          | None => Raise TypeError
          end
      | Some d =>
          match time i with
          | None =>
              if feqb v f0 then Raise (ValueError msg_speed_zero)
              else let* t := py_div d v in Ok [("time", VFloat t)]
          | Some _ => Ok []
          end
      end
  end.

Definition calculate (i : Inputs F) : Exc (Results F) :=
  if negb (Nat.eqb (none_count [speed i; time i; distance i]) 1)
  then Raise (ValueError msg_exactly_two)
  else except_zero_division (solve i) msg_cannot_divide.

End Calculate.

End Motion.

(** ** Equations of motion *)

Module EquationOfMotion.

Record Inputs (F : Type) : Type := mkInputs {
  initial_velocity : option F;
  final_velocity : option F;
  acceleration : option F;
  time : option F;
  distance : option F
}.

Arguments mkInputs {F} _ _ _ _ _.
Arguments initial_velocity {F} _.
Arguments final_velocity {F} _.
Arguments acceleration {F} _.
Arguments time {F} _.
Arguments distance {F} _.

Definition label_vuat : string := "v = u + at".
Definition label_sut : string := "s = ut + 0.5at²".
Definition label_v2u2 : string := "v² = u² + 2as".

Section Calculate.
Context {F : Type} {A : Arith F} {P : PyFloatOps F}.

(** [self.results[key] = x; self.results["formula"] = label] *)
Definition solved (key : string) (x : F) (label : string) : Exc (Results F) :=
  Ok [(key, VFloat x); ("formula", VStr label)].

(** The bodies of the eleven branches, named by the comments of the source
    ([# v = u + at] / [# find v], ...). *)

Definition vuat_find_v (u a t : F) : Exc (Results F) :=
  solved "final_velocity" (fadd u (fmul a t)) label_vuat.

Definition vuat_find_u (v a t : F) : Exc (Results F) :=
  solved "initial_velocity" (fsub v (fmul a t)) label_vuat.

Definition vuat_find_a (v u t : F) : Exc (Results F) :=
  if feqb t f0 then Raise (ValueError msg_time_zero)
  else let* a := py_div (fsub v u) t in solved "acceleration" a label_vuat.

Definition vuat_find_t (v u a : F) : Exc (Results F) :=
  if feqb a f0 then Raise (ValueError msg_acceleration_zero)
  else let* t := py_div (fsub v u) a in solved "time" t label_vuat.

Definition sut_find_s (u t a : F) : Exc (Results F) :=
  let* t2 := py_pow2 t in
  solved "distance" (fadd (fmul u t) (fmul fhalf (fmul a t2))) label_sut.

Definition sut_find_u (s t a : F) : Exc (Results F) :=
  if feqb t f0 then Raise (ValueError msg_time_zero)
  else
    let* t2 := py_pow2 t in
    let* u := py_div (fsub s (fmul (fmul fhalf a) t2)) t in
    solved "initial_velocity" u label_sut.

Definition sut_find_a (s u t : F) : Exc (Results F) :=
  if feqb t f0 then Raise (ValueError msg_time_zero)
  else
    let* t2 := py_pow2 t in
    let* a := py_div (fmul f2 (fsub s (fmul u t))) t2 in
    solved "acceleration" a label_sut.

Definition v2u2_find_v (u a s : F) : Exc (Results F) :=
  let* u2 := py_pow2 u in
  let velocity_squared := fadd u2 (fmul (fmul f2 a) s) in
  if fltb velocity_squared f0 then Raise (ValueError msg_negative_root)
  else
    let* v := math_sqrt velocity_squared in
    solved "final_velocity" v label_v2u2.

Definition v2u2_find_u (v a s : F) : Exc (Results F) :=
  let* v2 := py_pow2 v in
  let initial_velocity_squared := fsub v2 (fmul (fmul f2 a) s) in
  if fltb initial_velocity_squared f0 then Raise (ValueError msg_negative_root)
  else
    let* u := math_sqrt initial_velocity_squared in
    solved "initial_velocity" u label_v2u2.

Definition v2u2_find_a (v u s : F) : Exc (Results F) :=
  if feqb s f0 then Raise (ValueError msg_distance_zero)
  else
    let* v2 := py_pow2 v in
    let* u2 := py_pow2 u in
    let* a := py_div (fsub v2 u2) (fmul f2 s) in
    solved "acceleration" a label_v2u2.

Definition v2u2_find_s (v u a : F) : Exc (Results F) :=
  if feqb a f0 then Raise (ValueError msg_acceleration_zero)
  else
    let* v2 := py_pow2 v in
    let* u2 := py_pow2 u in
    let* s := py_div (fsub v2 u2) (fmul f2 a) in
    solved "distance" s label_v2u2.

(** The body of the [try] block: the chain of [if]/[elif] tests on which
    quantities are [None], in the order of the source. *)
Definition solve (i : Inputs F) : Exc (Results F) :=
  let u_ := initial_velocity i in
  let v_ := final_velocity i in
  let a_ := acceleration i in
  let t_ := time i in
  let s_ := distance i in
  (* v = u + at *)
  if is_none v_ && is_some u_ && is_some a_ && is_some t_ then
    let* u := need u_ in let* a := need a_ in let* t := need t_ in
    vuat_find_v u a t
  else if is_some v_ && is_none u_ && is_some a_ && is_some t_ then
    let* v := need v_ in let* a := need a_ in let* t := need t_ in
    vuat_find_u v a t
  else if is_some v_ && is_some u_ && is_none a_ && is_some t_ then
    let* v := need v_ in let* u := need u_ in let* t := need t_ in
    vuat_find_a v u t
  else if is_some v_ && is_some u_ && is_some a_ && is_none t_ then
    let* v := need v_ in let* u := need u_ in let* a := need a_ in
    vuat_find_t v u a
  (* s = ut + 0.5at² *)
  else if is_none s_ && is_some u_ && is_some t_ && is_some a_ then
    let* u := need u_ in let* t := need t_ in let* a := need a_ in
    sut_find_s u t a
  else if is_some s_ && is_none u_ && is_some t_ && is_some a_ then
    let* s := need s_ in let* t := need t_ in let* a := need a_ in
    sut_find_u s t a
  else if is_some s_ && is_some u_ && is_some t_ && is_none a_ then
    let* s := need s_ in let* u := need u_ in let* t := need t_ in
    sut_find_a s u t
  (* v² = u² + 2as *)
  else if is_none v_ && is_some u_ && is_some a_ && is_some s_ then
    let* u := need u_ in let* a := need a_ in let* s := need s_ in
    v2u2_find_v u a s
  else if is_some v_ && is_none u_ && is_some a_ && is_some s_ then
    let* v := need v_ in let* a := need a_ in let* s := need s_ in
    v2u2_find_u v a s
  else if is_some v_ && is_some u_ && is_none a_ && is_some s_ then
    let* v := need v_ in let* u := need u_ in let* s := need s_ in
    v2u2_find_a v u s
  else if is_some v_ && is_some u_ && is_some a_ && is_none s_ then
    let* v := need v_ in let* u := need u_ in let* a := need a_ in
    v2u2_find_s v u a
  else Raise (ValueError msg_insufficient).

Definition calculate (i : Inputs F) : Exc (Results F) :=
  except_zero_division (solve i) msg_division_by_zero.

(** *** The selection rule, as the specification words it *)

Inductive Formula : Type := F_vuat | F_sut | F_v2u2.

Definition label (f : Formula) : string :=
  match f with
  | F_vuat => label_vuat
  | F_sut => label_sut
  | F_v2u2 => label_v2u2
  end.

(** The four quantities a formula relates. *)
Definition required (f : Formula) (i : Inputs F) : list (option F) :=
  match f with
  | F_vuat => [initial_velocity i; final_velocity i; acceleration i; time i]
  | F_sut => [distance i; initial_velocity i; time i; acceleration i]
  | F_v2u2 => [final_velocity i; initial_velocity i; acceleration i; distance i]
  end.

(** Exactly one of the formula's four quantities is absent. *)
Definition eligible (f : Formula) (i : Inputs F) : bool :=
  Nat.eqb (none_count (required f i)) 1.

Definition first_such (p : Formula -> bool) : option Formula :=
  find p [F_vuat; F_sut; F_v2u2].

(** The first formula, in the order (1), (2), (3), that is eligible. *)
Definition first_eligible (i : Inputs F) : option Formula :=
  first_such (fun f => eligible f i).

(** A formula is eligible and has a branch that solves for its absent
    quantity: [s = ut + 0.5at²] has none for the time. *)
Definition solvable (f : Formula) (i : Inputs F) : bool :=
  eligible f i &&
  match f with
  | F_sut => is_some (time i)
  | _ => true
  end.

Definition first_solvable (i : Inputs F) : option Formula :=
  first_such (fun f => solvable f i).

(** Solving one formula for the absent one of its four quantities. *)
Definition solve_formula (f : Formula) (i : Inputs F) : Exc (Results F) :=
  match f with
  | F_vuat =>
      match final_velocity i, initial_velocity i, acceleration i, time i with
      | None, Some u, Some a, Some t => vuat_find_v u a t
      | Some v, None, Some a, Some t => vuat_find_u v a t
      | Some v, Some u, None, Some t => vuat_find_a v u t
      | Some v, Some u, Some a, None => vuat_find_t v u a
      | _, _, _, _ => Raise (ValueError msg_insufficient)
      end
  | F_sut =>
      match distance i, initial_velocity i, time i, acceleration i with
      | None, Some u, Some t, Some a => sut_find_s u t a
      | Some s, None, Some t, Some a => sut_find_u s t a
      | Some s, Some u, Some t, None => sut_find_a s u t
      | _, _, _, _ => Raise (ValueError msg_insufficient)
      end
  | F_v2u2 =>
      match final_velocity i, initial_velocity i, acceleration i, distance i with
      | None, Some u, Some a, Some s => v2u2_find_v u a s
      | Some v, None, Some a, Some s => v2u2_find_u v a s
      | Some v, Some u, None, Some s => v2u2_find_a v u s
      | Some v, Some u, Some a, None => v2u2_find_s v u a
      | _, _, _, _ => Raise (ValueError msg_insufficient)
      end
  end.

(** The solver as the specification describes it: take the first formula
    that can be solved, and solve it. *)
Definition calculate_by_priority (i : Inputs F) : Exc (Results F) :=
  match first_solvable i with
  | Some f => except_zero_division (solve_formula f i) msg_division_by_zero
  | None => Raise (ValueError msg_insufficient)
  end.

(** The formula a result names. *)
Definition formula_of (r : Results F) : option (PyVal F) := dict_get r "formula".

End Calculate.

End EquationOfMotion.

(** ** Free fall *)

Module FreeFall.

Record Inputs (F : Type) : Type := mkInputs {
  final_velocity : option F;
  height : option F;
  time : option F
}.

Arguments mkInputs {F} _ _ _.
Arguments final_velocity {F} _.
Arguments height {F} _.
Arguments time {F} _.

Definition label_vgt : string := "v = gt".
Definition label_v2gh : string := "v² = 2gh".
Definition label_hgt2 : string := "h = 0.5gt²".

Section Calculate.
Context {F : Type} {A : Arith F} {P : PyFloatOps F}.

Definition solved (key : string) (x : F) (label : string) : Exc (Results F) :=
  Ok [(key, VFloat x); ("formula", VStr label)].

(** [Constant.GRAVITY_FORCE] *)
Definition gravity : F := fgravity.

Definition solve (i : Inputs F) : Exc (Results F) :=
  let v_ := final_velocity i in
  let h_ := height i in
  let t_ := time i in
  (* v = gt *)
  if is_none v_ && is_some t_ then
    let* t := need t_ in
    solved "final_velocity" (fmul gravity t) label_vgt
  else if is_none t_ && is_some v_ then
    let* v := need v_ in
    let* t := py_div v gravity in
    solved "time" t label_vgt
  (* v² = 2gh *)
  else if is_none v_ && is_some h_ then
    let* h := need h_ in
    let* v := math_sqrt (fmul (fmul f2 gravity) h) in
    solved "final_velocity" v label_v2gh
  else if is_none h_ && is_some v_ then
    let* v := need v_ in let* v2 := py_pow2 v in
    let* h := py_div v2 (fmul f2 gravity) in
    solved "height" h label_v2gh
  (* h = 0.5gt² *)
  else if is_none h_ && is_some t_ then
    let* t := need t_ in let* t2 := py_pow2 t in
    solved "height" (fmul (fmul fhalf gravity) t2) label_hgt2
  else if is_none t_ && is_some h_ then
    let* h := need h_ in
    let* q := py_div (fmul f2 h) gravity in
    let* t := math_sqrt q in
    solved "time" t label_hgt2
  else Raise (ValueError msg_insufficient).

Definition calculate (i : Inputs F) : Exc (Results F) :=
  if negb (Nat.eqb (none_count [final_velocity i; height i; time i]) 1)
  then Raise (ValueError msg_exactly_two)
  else except_zero_division (solve i) msg_division_by_zero.

End Calculate.

End FreeFall.

(** ** Python values, and the exceptions beyond the solvers' *)

(** What [json.load] can return and what the program stores in the history:
    [None], booleans, integers, floats, strings, lists, and dictionaries in
    insertion order (their keys are distinct). *)
Inductive PyObj (F : Type) : Type :=
| PNone
| PBool (b : bool)
| PInt (z : Z)
| PFloat (x : F)
| PStr (s : string)
| PList (l : list (PyObj F))
| PDict (d : list (string * PyObj F)).

Arguments PNone {F}.
Arguments PBool {F} b.
Arguments PInt {F} z.
Arguments PFloat {F} x.
Arguments PStr {F} s.
Arguments PList {F} l.
Arguments PDict {F} d.

(** [self.inputs]: the quantities by name, in the order they were asked. *)
Definition InputsDict (F : Type) : Type := list (string * option F).

(** [self.inputs] and [self.results] as Python values. *)
Definition obj_of_inputs {F : Type} (d : InputsDict F) : PyObj F :=
  PDict (map (fun '(key, o) =>
                (key, match o with Some x => PFloat x | None => PNone end)) d).

Definition obj_of_results {F : Type} (r : Results F) : PyObj F :=
  PDict (map (fun '(key, v) =>
                (key, match v with VFloat x => PFloat x | VStr s => PStr s end)) r).

(** The exceptions outside the solvers: [input] raises [EOFError] at the end
    of the input; a dictionary lookup of a missing key raises [KeyError]; a
    method that the object does not have, [AttributeError]; reading a file
    that is not text in the expected encoding, [UnicodeDecodeError];
    parsing JSON nested too deep, [RecursionError]; [SliceError] stands for
    what slicing a dictionary raises ([TypeError] before Python 3.12,
    [KeyError] since). *)
Inductive IOExn : Type :=
| Py (e : PyExn)
| EOFError
| KeyError
| AttributeError
| UnicodeDecodeError (msg : string)
| RecursionError
| SliceError.

Inductive IOResult (A : Type) : Type :=
| Done (a : A)
| Fail (e : IOExn).

Arguments Done {A} a.
Arguments Fail {A} e.

(** ** The calculation history *)

(** What [json.load] makes of the content of a file: a value, a
    [JSONDecodeError] (with its text), or another exception, which is
    neither an [IOError] nor a [JSONDecodeError]: a [UnicodeDecodeError]
    for a file that is not text, a [RecursionError] for one nested too
    deep. *)
Inductive LoadOutcome (F : Type) : Type :=
| Loaded (v : PyObj F)
| JSONDecodeError (error : string)
| Uncaught (e : IOExn).

Arguments Loaded {F} v.
Arguments JSONDecodeError {F} error.
Arguments Uncaught {F} e.

(** The [json] module: [json_dump v] is the text that
    [json.dump(v, f, indent=2)] writes, [json_load text] what
    [json.load(f)] does on a file holding [text]. *)
Class Json (F : Type) : Type := {
  json_dump : PyObj F -> string;
  json_load : string -> LoadOutcome F
}.

Module CalculationHistory.

Section History.
Context {F : Type} {J : Json F}.

(** The world outside the process: the text of the files by name ([None]:
    no such path), the [IOError] that opening a path for reading or for
    writing raises, if any (its text), the clock as [strftime] formats it,
    and what was printed.  A failure in the middle of a write is not
    modelled: a file is written as a whole or not at all. *)
Record World : Type := mkWorld {
  file : string -> option string;
  read_error : string -> option string;
  write_error : string -> option string;
  now : string;
  stdout : list string
}.

Definition print (line : string) (w : World) : World :=
  mkWorld (file w) (read_error w) (write_error w) (now w) (stdout w ++ [line]).

Definition write_file (name text : string) (w : World) : World :=
  mkWorld (fun n => if String.eqb n name then Some text else file w n)
          (read_error w) (write_error w) (now w) (stdout w).

(** The object: [self.filename] and [self.history]. *)
Record t : Type := mk {
  filename : string;
  history : PyObj F
}.

Definition warn_save (error : string) : string :=
  "Warning: Could not save history: " ++ error.
Definition warn_load (error : string) : string :=
  "Warning: Could not load history: " ++ error.

Definition save_history (self : t) (w : World) : World :=
  match write_error w (filename self) with
  | Some error => print (warn_save error) w
  | None => write_file (filename self) (json_dump (history self)) w
  end.

(** [load_history]: it catches [IOError] and [JSONDecodeError]; any other
    exception of [json.load] leaves it. *)
Definition load_history (self : t) (w : World) : IOResult t * World :=
  match file w (filename self) with
  | None => (Done self, w)
  | Some text =>
      match read_error w (filename self) with
      | Some error =>
          (Done (mk (filename self) (PList [])), print (warn_load error) w)
      | None =>
          match json_load text with
          | Loaded v => (Done (mk (filename self) v), w)
          | JSONDecodeError error =>
              (Done (mk (filename self) (PList [])), print (warn_load error) w)
          | Uncaught e => (Fail e, w)
          end
      end
  end.

(** [__init__] *)
Definition init (name : string) (w : World) : IOResult t * World :=
  load_history (mk name (PList [])) w.

(** The entry that [add_calculation] builds. *)
Definition new_entry (timestamp_ topic_ : string) (inputs_ results_ : PyObj F)
    : PyObj F :=
  PDict [("timestamp", PStr timestamp_); ("topic", PStr topic_);
         ("inputs", inputs_); ("results", results_)].

(** [add_calculation]: [self.history.append(entry)] exists on a list only. *)
Definition add_calculation (self : t) (w : World)
    (topic_ : string) (inputs_ results_ : PyObj F) : IOResult t * World :=
  let entry := new_entry (now w) topic_ inputs_ results_ in
  match history self with
  | PList l => (Done (mk (filename self) (PList (l ++ [entry]))), w)
  | _ => (Fail AttributeError, w)
  end.

Definition clear_history (self : t) (w : World) : t * World :=
  let self' := mk (filename self) (PList []) in
  (self', print "History clear successfull!" (save_history self' w)).

(** [__exit__]; [exc] is the text of the exception that left the [with]
    block, if one did. *)
Definition exit (self : t) (w : World) (exc : option string) : World :=
  let w' := save_history self w in
  match exc with
  | Some e => print ("Error occured: " ++ e) w'
  | None => w'
  end.

(** The file on disk holds exactly what [json.dump] writes for the history
    in memory. *)
Definition persisted (self : t) (w : World) : Prop :=
  file w (filename self) = Some (json_dump (history self)).

(** The history that the constructor leaves in memory when it returns:
    what [json.load] read, and the empty list when there is no file, when it
    cannot be read or when it does not hold JSON. *)
Definition loaded_value (name : string) (w : World) : PyObj F :=
  match file w name with
  | None => PList []
  | Some text =>
      match read_error w name with
      | Some _ => PList []
      | None =>
          match json_load text with
          | Loaded v => v
          | _ => PList []
          end
      end
  end.

End History.

Arguments t F : clear implicits.

End CalculationHistory.

(** A [json] module for the sample runs: it writes the same text for every
    value and reads every text as the empty list.  No statement below
    depends on what it writes. *)
Definition sample_json : Json float := {|
  json_dump := fun _ => "[...]";
  json_load := fun _ => Loaded (PList [])
|}.

(** * The interactive program *)

(** ** Built-ins of the interactive layer *)

(** The built-in functions of Python that the program calls on strings and
    numbers.  [float_of_str] and [int_of_str] are [float(s)] and [int(s)],
    [None] standing for their [ValueError]; [str_length] is [len] of a
    string; [format_2f x] is [f"{x:.2f}"] and [str_float x] is [str(x)];
    [str_obj v] is [str(v)], the text of a value inside an f-string;
    [str_exn e] is [str(e)]. *)
Class PyBuiltins (F : Type) : Type := {
  str_strip : string -> string;
  str_lower : string -> string;
  str_capitalize : string -> string;
  str_title : string -> string;
  str_length : string -> nat;
  float_of_str : string -> option F;
  int_of_str : string -> option Z;
  str_of_int : Z -> string;
  format_2f : F -> string;
  str_float : F -> string;
  str_obj : PyObj F -> string;
  str_exn : IOExn -> string
}.

(** [s.replace(a, b)] for single characters. *)
Fixpoint str_replace (a b : Ascii.ascii) (s : string) : string :=
  match s with
  | EmptyString => EmptyString
  | String c s' => String (if Ascii.eqb c a then b else c) (str_replace a b s')
  end.

(** ** The console *)

(** The lines still to be read from the standard input and the readings
    that the coming calls of [datetime.now()] will give, both known in
    advance, with the world of files and of what was written to the standard
    output.  Every [print] and every prompt of [input] is one item of
    [stdout]. *)
Record Console : Type := mkConsole {
  stdin : list string;
  clock : list string;
  world : CalculationHistory.World
}.

(** A step of the program over a state [S]: a value or an exception, and
    the state after it (what was read, written and stored before an
    exception stays so). *)
Definition IOS (S A : Type) : Type := S -> IOResult A * S.

Definition IO (A : Type) : Type := IOS Console A.

Section Steps.
Context {S : Type}.

Definition io_ret {A : Type} (a : A) : IOS S A := fun s => (Done a, s).

Definition io_bind {A B : Type} (m : IOS S A) (k : A -> IOS S B) : IOS S B :=
  fun s =>
    match m s with
    | (Done a, s') => k a s'
    | (Fail e, s') => (Fail e, s')
    end.

Definition io_raise {A : Type} (e : IOExn) : IOS S A := fun s => (Fail e, s).

(** [try: body / except Exception as e: handler(e)] *)
Definition io_try {A : Type} (body : IOS S A) (handler : IOExn -> IOS S A)
    : IOS S A :=
  fun s =>
    match body s with
    | (Done a, s') => (Done a, s')
    | (Fail e, s') => handler e s'
    end.

(** A solver's outcome inside the interactive program. *)
Definition io_lift {A : Type} (r : Exc A) : IOS S A :=
  match r with
  | Ok a => io_ret a
  | Raise e => io_raise (Py e)
  end.

(** An outcome computed without the state. *)
Definition io_of {A : Type} (r : IOResult A) : IOS S A := fun s => (r, s).

End Steps.

Definition write (s : string) (c : Console) : Console :=
  mkConsole (stdin c) (clock c) (CalculationHistory.print s (world c)).

Definition with_stdin (lines : list string) (c : Console) : Console :=
  mkConsole lines (clock c) (world c).

(** [print(s)] *)
Definition io_print (s : string) : IO unit := fun c => (Done tt, write s c).

(** Several calls of [print], one after the other. *)
Definition print_lines (lines : list string) (c : Console) : Console :=
  fold_left (fun c line => write line c) lines c.

(** [input(prompt)]: the prompt is written, then a line is read. *)
Definition input (prompt : string) : IO string :=
  fun c =>
    let c' := write prompt c in
    match stdin c' with
    | [] => (Fail EOFError, c')
    | line :: rest => (Done line, with_stdin rest c')
    end.

(** The clock moves on to its next reading (and stays when none is left). *)
Definition tick (c : Console) : Console :=
  match clock c with
  | [] => c
  | t :: later =>
      mkConsole (stdin c) later
        (CalculationHistory.mkWorld
           (CalculationHistory.file (world c))
           (CalculationHistory.read_error (world c))
           (CalculationHistory.write_error (world c))
           t
           (CalculationHistory.stdout (world c)))
  end.

Notation "x <- m ;; k" := (io_bind m (fun x => k))
  (at level 61, m at next level, right associativity).
Notation "m ;;; k" := (io_bind m (fun _ => k))
  (at level 61, right associativity).

(** ** Reading numbers *)

Definition msg_invalid_float : string :=
  "Invalid input! Please enter a number or press Enter to skip.".
Definition msg_invalid_int : string :=
  "Invalid input! Please enter a valid integer.".

Section ReadingNumbers.
Context {F : Type} {B : PyBuiltins F}.

(** The [while True] loop of [get_float_input], by recursion on the lines
    to be read: every turn reads one line or ends with [EOFError]. *)
Fixpoint get_float_loop (prompt : string) (lines : list string) (c : Console)
    : IOResult (option F) * Console :=
  let c := write prompt c in
  match lines with
  | [] => (Fail EOFError, with_stdin [] c)
  | line :: rest =>
      let value := str_strip line in
      if String.eqb value "" then (Done None, with_stdin rest c)
      else
        match float_of_str value with
        | Some x => (Done (Some x), with_stdin rest c)
        | None => get_float_loop prompt rest (write msg_invalid_float c)
        end
  end.

Definition get_float_input (prompt : string) : IO (option F) :=
  fun c => get_float_loop prompt (stdin c) c.

(** [min_val is not None and value < min_val] *)
Definition below (min_val : option Z) (value : Z) : bool :=
  match min_val with
  | Some lo => (value <? lo)%Z
  | None => false
  end.

(** [max_val is not None and value > max_val] *)
Definition above (max_val : option Z) (value : Z) : bool :=
  match max_val with
  | Some hi => (value >? hi)%Z
  | None => false
  end.

(** [f"...{bound}"], for a bound that is not [None]. *)
Definition bound_text (bound : option Z) : string :=
  match bound with
  | Some b => str_of_int b
  | None => "None"
  end.

(** The [while True] loop of [get_int_input]. *)
Fixpoint get_int_loop (prompt : string) (min_val max_val : option Z)
    (lines : list string) (c : Console) : IOResult Z * Console :=
  let c := write prompt c in
  match lines with
  | [] => (Fail EOFError, with_stdin [] c)
  | line :: rest =>
      match int_of_str (str_strip line) with
      | Some value =>
          if below min_val value then
            get_int_loop prompt min_val max_val rest
              (write ("Value must be at least " ++ bound_text min_val) c)
          else if above max_val value then
            get_int_loop prompt min_val max_val rest
              (write ("Value must be at most " ++ bound_text max_val) c)
          else (Done value, with_stdin rest c)
      | None =>
          get_int_loop prompt min_val max_val rest (write msg_invalid_int c)
      end
  end.

Definition get_int_input (prompt : string) (min_val max_val : option Z)
    : IO Z :=
  fun c => get_int_loop prompt min_val max_val (stdin c) c.

End ReadingNumbers.

(** ** Showing the history *)

(** Where [l[-limit:]] starts in a sequence of length [n]. *)
Definition slice_start (limit : Z) (n : nat) : nat :=
  let start := (- limit)%Z in
  Z.to_nat (if (start <? 0)%Z then Z.max 0 (start + Z.of_nat n)
            else Z.min start (Z.of_nat n)).

(** [l[-limit:]] *)
Definition slice_last {A : Type} (limit : Z) (l : list A) : list A :=
  skipn (slice_start limit (length l)) l.

Section DisplayHistory.
Context {F : Type} {A : Arith F} {B : PyBuiltins F}.

(** [not v] *)
Definition falsy (v : PyObj F) : bool :=
  match v with
  | PNone => true
  | PBool b => negb b
  | PInt z => (z =? 0)%Z
  | PFloat x => feqb x f0
  | PStr s => String.eqb s ""
  | PList l => match l with [] => true | _ :: _ => false end
  | PDict d => match d with [] => true | _ :: _ => false end
  end.

(** [len(v)]: [TypeError] for a value without a length. *)
Definition py_len (v : PyObj F) : IOResult nat :=
  match v with
  | PStr s => Done (str_length s)
  | PList l => Done (length l)
  | PDict d => Done (length d)
  | _ => Fail (Py TypeError)
  end.

(** [v[key]] for a string [key]: [KeyError] for a dictionary without the
    key, [TypeError] for any other value. *)
Definition py_getitem (v : PyObj F) (key : string) : IOResult (PyObj F) :=
  match v with
  | PDict d =>
      match dict_get d key with
      | Some x => Done x
      | None => Fail KeyError
      end
  | _ => Fail (Py TypeError)
  end.

(** [f"{v}"] *)
Definition fmt (v : PyObj F) : string :=
  match v with
  | PStr s => s
  | _ => str_obj v
  end.

(** The body of the loop of [display_history] for one entry. *)
Definition display_entry (entry : PyObj F) : IO unit :=
  timestamp_ <- io_of (py_getitem entry "timestamp") ;;
  topic_ <- io_of (py_getitem entry "topic") ;;
  io_print (fmt timestamp_ ++ " - " ++ fmt topic_) ;;;
  inputs_ <- io_of (py_getitem entry "inputs") ;;
  io_print ("Inputs: " ++ fmt inputs_) ;;;
  results_ <- io_of (py_getitem entry "results") ;;
  io_print ("Results: " ++ fmt results_).

Fixpoint display_entries (entries : list (PyObj F)) : IO unit :=
  match entries with
  | [] => io_ret tt
  | entry :: later => display_entry entry ;;; display_entries later
  end.

Definition history_heading (n : Z) : string :=
  "CALCULATION HISTORY (Last " ++ str_of_int n ++ " entries)".

(** [CalculationHistory.display_history].  The slice of a string is a
    string, whose characters have no item ['timestamp']; a dictionary
    cannot be sliced. *)
Definition display_history (self : CalculationHistory.t F) (limit : Z)
    : IO unit :=
  let h := CalculationHistory.history self in
  if falsy h then io_print "No calculation history"
  else
    n <- io_of (py_len h) ;;
    io_print (history_heading (Z.min limit (Z.of_nat n))) ;;;
    match h with
    | PList l => display_entries (slice_last limit l)
    | PStr _ =>
        if Nat.ltb (slice_start limit n) n then io_raise (Py TypeError)
        else io_ret tt
    | PDict _ => io_raise SliceError
    | _ => io_ret tt
    end.

End DisplayHistory.

(** ** The calculators as objects *)

(** The classes of [calculators = {1: Motion, 2: EquationOfMotion, 3: FreeFall}]. *)
Inductive Kind : Type := KMotion | KEquationOfMotion | KFreeFall.

(** [self.__class__.__name__] *)
Definition class_name (k : Kind) : string :=
  match k with
  | KMotion => "Motion"
  | KEquationOfMotion => "EquationOfMotion"
  | KFreeFall => "FreeFall"
  end.

(** [self.inputs] of a calculator of each class. *)
Inductive CalcInputs (F : Type) : Type :=
| MotionInputs (i : Motion.Inputs F)
| EquationOfMotionInputs (i : EquationOfMotion.Inputs F)
| FreeFallInputs (i : FreeFall.Inputs F).

Arguments MotionInputs {F} i.
Arguments EquationOfMotionInputs {F} i.
Arguments FreeFallInputs {F} i.

(** The dictionary that [get_inputs] builds. *)
Definition inputs_dict {F : Type} (i : CalcInputs F) : InputsDict F :=
  match i with
  | MotionInputs i =>
      [("speed", Motion.speed i); ("time", Motion.time i);
       ("distance", Motion.distance i)]
  | EquationOfMotionInputs i =>
      [("initial_velocity", EquationOfMotion.initial_velocity i);
       ("final_velocity", EquationOfMotion.final_velocity i);
       ("acceleration", EquationOfMotion.acceleration i);
       ("time", EquationOfMotion.time i);
       ("distance", EquationOfMotion.distance i)]
  | FreeFallInputs i =>
      [("final_velocity", FreeFall.final_velocity i);
       ("height", FreeFall.height i);
       ("time", FreeFall.time i)]
  end.

(** A result is one solved quantity, which was absent from the inputs,
    with or without the formula label. *)
Definition solves_for {F : Type} (i : CalcInputs F) (r : Results F) : Prop :=
  exists key x,
    dict_get (inputs_dict i) key = Some None /\
    (r = [(key, VFloat x)] \/
     exists label, r = [(key, VFloat x); ("formula", VStr label)]).

Definition kind_of {F : Type} (i : CalcInputs F) : Kind :=
  match i with
  | MotionInputs _ => KMotion
  | EquationOfMotionInputs _ => KEquationOfMotion
  | FreeFallInputs _ => KFreeFall
  end.

Definition msg_enter_known : string :=
  "Enter known values (if you don't know press Enter to skip)".
Definition msg_format_str : string :=
  "Unknown format code 'f' for object of type 'str'".

Section Calculators.
Context {F : Type} {A : Arith F} {P : PyFloatOps F} {B : PyBuiltins F}.

(** [get_inputs] of the three classes. *)
Definition get_inputs (k : Kind) : IO (CalcInputs F) :=
  match k with
  | KMotion =>
      io_print "====== BASIC MOTION ======" ;;;
      io_print msg_enter_known ;;;
      io_print "Formula is v = s / t" ;;;
      speed <- get_float_input "Speed (m/s): " ;;
      time <- get_float_input "Time (s): " ;;
      distance <- get_float_input "Distance (m): " ;;
      io_ret (MotionInputs (Motion.mkInputs speed time distance))
  | KEquationOfMotion =>
      io_print "====== EQUATIONS OF MOTION ======" ;;;
      io_print msg_enter_known ;;;
      io_print "we can calculate the problems that can use 3 formula show below" ;;;
      io_print "v = u + at" ;;;
      io_print "s = ut + 0.5at²" ;;;
      io_print "v² = u² + 2as" ;;;
      u <- get_float_input "Initial velocity u (m/s): " ;;
      v <- get_float_input "Final velocity v (m/s): " ;;
      a <- get_float_input "Acceleration a (m/s²): " ;;
      t <- get_float_input "Time t (s): " ;;
      s <- get_float_input "Distance s (m): " ;;
      io_ret (EquationOfMotionInputs (EquationOfMotion.mkInputs u v a t s))
  | KFreeFall =>
      io_print "====== FREE FALL ======" ;;;
      io_print msg_enter_known ;;;
      v <- get_float_input "Final velocity (m/s): " ;;
      h <- get_float_input "Height (m): " ;;
      t <- get_float_input "Time (s): " ;;
      io_ret (FreeFallInputs (FreeFall.mkInputs v h t))
  end.

(** [calculate], starting from the empty [self.results] of a new object. *)
Definition calculate_of (i : CalcInputs F) : Exc (Results F) :=
  match i with
  | MotionInputs i => Motion.calculate i
  | EquationOfMotionInputs i => EquationOfMotion.calculate i
  | FreeFallInputs i => FreeFall.calculate i
  end.

(** [f"{value:.2f}"]: a string has no format [f]. *)
Definition format_value (v : PyVal F) : Exc string :=
  match v with
  | VFloat x => Ok (format_2f x)
  | VStr _ => Raise (ValueError msg_format_str)
  end.

(** [Motion.display_results]: the loop over [self.results.items()]. *)
Fixpoint display_items_motion (r : Results F) : IO unit :=
  match r with
  | [] => io_ret tt
  | (key, value) :: r' =>
      text <- io_lift (format_value value) ;;
      io_print (str_capitalize key ++ ": " ++ text) ;;;
      display_items_motion r'
  end.

(** The loop of [display_results] of the two other classes, which skips
    the formula. *)
Fixpoint display_items_formula (r : Results F) : IO unit :=
  match r with
  | [] => io_ret tt
  | (key, value) :: r' =>
      (if negb (String.eqb key "formula") then
         text <- io_lift (format_value value) ;;
         io_print (str_title (str_replace "_" " " key) ++ ": " ++ text)
       else io_ret tt) ;;;
      display_items_formula r'
  end.

(** [f"{self.results.get('formula', 'Unknown')}"] *)
Definition formula_text (r : Results F) : string :=
  match dict_get r "formula" with
  | Some (VStr s) => s
  | Some (VFloat x) => str_float x
  | None => "Unknown"
  end.

Definition display_results (k : Kind) (r : Results F) : IO unit :=
  match k with
  | KMotion =>
      io_print "====== Calculating ======" ;;;
      display_items_motion r
  | _ =>
      io_print "CALCULATION RESULTS" ;;;
      io_print ("Formula used: " ++ formula_text r) ;;;
      display_items_formula r
  end.

End Calculators.

(** ** The assistant *)

(** The state of the running assistant: the history object, which the
    assistant and every calculator it creates share, and the console. *)
Record App (F : Type) : Type := mkApp {
  app_history : CalculationHistory.t F;
  console : Console
}.

Arguments mkApp {F} _ _.
Arguments app_history {F} _.
Arguments console {F} _.

(** How an iteration of the main loop ends. *)
Inductive Ctl : Type := Break | Continue.

(** How a session ends: the constructor of the history let an exception
    out, before the [with] block was entered; or the block was entered, the
    loop ended and [__exit__] ran. *)
Inductive SessionEnd (F : Type) : Type :=
| CrashedAtStart (e : IOExn) (c : Console)
| Ended (r : IOResult unit) (s : App F).

Arguments CrashedAtStart {F} e c.
Arguments Ended {F} r s.

Definition default_filename : string := "physics_history.json".

Section Assistant.
Context {F : Type} {A : Arith F} {P : PyFloatOps F} {B : PyBuiltins F}
  {J : Json F}.

(** A step that only uses the console. *)
Definition on_console {X : Type} (m : IO X) : IOS (App F) X :=
  fun s =>
    let (r, c) := m (console s) in (r, mkApp (app_history s) c).

(** A method of the history object that returns. *)
Definition on_history
    (f : CalculationHistory.t F -> CalculationHistory.World ->
         CalculationHistory.t F * CalculationHistory.World)
    : IOS (App F) unit :=
  fun s =>
    let (h, w) := f (app_history s) (world (console s)) in
    (Done tt, mkApp h (mkConsole (stdin (console s)) (clock (console s)) w)).

(** A method of the history object that may raise; the object is then as
    it was. *)
Definition on_history_try
    (f : CalculationHistory.t F -> CalculationHistory.World ->
         IOResult (CalculationHistory.t F) * CalculationHistory.World)
    : IOS (App F) unit :=
  fun s =>
    let c := console s in
    match f (app_history s) (world c) with
    | (Done h, w) => (Done tt, mkApp h (mkConsole (stdin c) (clock c) w))
    | (Fail e, w) =>
        (Fail e, mkApp (app_history s) (mkConsole (stdin c) (clock c) w))
    end.

(** [PhysicCalcution.run], for a new calculator of class [k];
    [add_calculation] reads the clock at its next reading. *)
Definition run (k : Kind) : IOS (App F) unit :=
  io_try
    (i <- on_console (get_inputs k) ;;
     r <- io_lift (calculate_of i) ;;
     on_console (display_results k r) ;;;
     on_console (fun c => (Done tt, tick c)) ;;;
     on_history_try (fun h w =>
       CalculationHistory.add_calculation h w (class_name k)
         (obj_of_inputs (inputs_dict i)) (obj_of_results r)))
    (fun e => on_console (io_print ("Calculation Error: " ++ str_exn e))).

(** [calculators[choice]] *)
Definition calculators (choice : Z) : option Kind :=
  if (choice =? 1)%Z then Some KMotion
  else if (choice =? 2)%Z then Some KEquationOfMotion
  else if (choice =? 3)%Z then Some KFreeFall
  else None.

Definition show_main_menu : IO Z :=
  io_print "====== Main Menu ======" ;;;
  io_print "1. Motion Calculations" ;;;
  io_print "2. Show Calculations History" ;;;
  io_print "3. Clear History" ;;;
  io_print "0. Exit" ;;;
  get_int_input "Enter your choice: " (Some 0%Z) (Some 3%Z).

Definition show_motion_menu : IOS (App F) unit :=
  on_console (io_print "====== Motion Menu ======") ;;;
  on_console (io_print "1. Basic Motion") ;;;
  on_console (io_print "2. Equation of Motion") ;;;
  on_console (io_print "3. Free Fall") ;;;
  choice <- on_console (get_int_input "Enter your choice: " (Some 1%Z) (Some 3%Z)) ;;
  match calculators choice with
  | Some k => run k
  | None => io_raise KeyError
  end.

(** The body of the [try] of the main loop. *)
Definition loop_body : IOS (App F) Ctl :=
  choice <- on_console show_main_menu ;;
  if (choice =? 0)%Z then
    on_console (io_print "Thank you for using Physics Assistant") ;;;
    on_console (io_print "Your calculation history has been saved") ;;;
    io_ret Break
  else
    (if (choice =? 1)%Z then show_motion_menu
     else if (choice =? 2)%Z then
       fun s => on_console (display_history (app_history s) 10) s
     else if (choice =? 3)%Z then
       confirm <- on_console
         (input "Are you sure you want to clear history? (yes/no): ") ;;
       if String.eqb (str_lower confirm) "yes"
       then on_history CalculationHistory.clear_history
       else io_ret tt
     else io_ret tt) ;;;
    on_console (input "Press Enter to continue...") ;;;
    io_ret Continue.

(** One turn of [while True]: the [try] and its [except Exception]. *)
Definition loop_turn : IOS (App F) Ctl :=
  io_try loop_body
    (fun e =>
       on_console (io_print ("An unexpected error occurred: " ++ str_exn e)) ;;;
       on_console (input "Press Enter to continue...") ;;;
       io_ret Continue).

(** The [while True] loop, for at most [fuel] turns; [None] when the turns
    run out before the loop ends. *)
Fixpoint main_loop (fuel : nat) (s : App F) : option (IOResult unit * App F) :=
  match fuel with
  | O => None
  | S fuel' =>
      match loop_turn s with
      | (Done Break, s') => Some (Done tt, s')
      | (Done Continue, s') => main_loop fuel' s'
      | (Fail e, s') => Some (Fail e, s')
      end
  end.

(** [PhysicsAssistant.run] from the [with] statement on (the banner is
    shown before it): the history is loaded, which may raise; then the loop
    runs, and [__exit__] saves the history whether the loop ended by
    [break] or by an exception, which then goes on to the caller. *)
Definition run_session (fuel : nat) (c : Console) : option (SessionEnd F) :=
  match CalculationHistory.init default_filename (world c) with
  | (Fail e, w) => Some (CrashedAtStart e (mkConsole (stdin c) (clock c) w))
  | (Done h, w) =>
      match main_loop fuel (mkApp h (mkConsole (stdin c) (clock c) w)) with
      | None => None
      | Some (r, s) =>
          let exc := match r with
                     | Done _ => None
                     | Fail e => Some (str_exn e)
                     end in
          let w' :=
            CalculationHistory.exit (app_history s) (world (console s)) exc in
          Some (Ended r
                  (mkApp (app_history s)
                     (mkConsole (stdin (console s)) (clock (console s)) w')))
      end
  end.

End Assistant.

(** * The generator of [generator.py] *)

Module Generator.

(** A generator object of [custom_generator(data)]: not yet started,
    suspended at the [yield] of some index with the length [len(data)] had
    when the loop began, or finished. *)
Inductive State : Type :=
| Created
| Suspended (len : nat) (index : nat)
| Finished.

Inductive Step (A : Type) : Type :=
| Yield (index : nat) (element : A)
| StopIteration
| IndexError.

Arguments Yield {A} index element.
Arguments StopIteration {A}.
Arguments IndexError {A}.

(** The body of the [for] loop at [index]: [data[index]] on the list as it
    is now. *)
Definition visit {A : Type} (len index : nat) (data : list A) : Step A * State :=
  if Nat.ltb index len then
    match nth_error data index with
    | Some element => (Yield index element, Suspended len index)
    | None => (IndexError, Finished)
    end
  else (StopIteration, Finished).

(** [next(gen)], where [data] is the present content of the list the
    generator was created on. *)
Definition next {A : Type} (g : State) (data : list A) : Step A * State :=
  match g with
  | Created => visit (length data) 0 data
  | Suspended len index => visit len (S index) data
  | Finished => (StopIteration, Finished)
  end.

(** What [n] calls of [next] yield when the list is not changed meanwhile,
    up to the first call that does not yield. *)
Fixpoint take {A : Type} (n : nat) (g : State) (data : list A) : list (nat * A) :=
  match n with
  | O => []
  | S n' =>
      match next g data with
      | (Yield i x, g') => (i, x) :: take n' g' data
      | (_, _) => []
      end
  end.

(** The generator after [n] calls of [next] on an unchanged list. *)
Fixpoint advance {A : Type} (n : nat) (g : State) (data : list A) : State :=
  match n with
  | O => g
  | S n' => advance n' (snd (next g data)) data
  end.

(** [list(custom_generator(data))] *)
Definition to_list {A : Type} (data : list A) : list (nat * A) :=
  take (S (length data)) Created data.

End Generator.

(** ** Predicates used in the statements *)

Section Frames.
Context {F : Type} {B : PyBuiltins F}.
Local Open Scope list_scope.

(** What a line answers to [get_float_input]: [Some None] for a blank line,
    [Some (Some x)] for a number, [None] when it is rejected. *)
Definition float_entry (line : string) : option (option F) :=
  let value := str_strip line in
  if String.eqb value "" then Some None
  else
    match float_of_str value with
    | Some x => Some (Some x)
    | None => None
    end.

(** What a line answers to [get_int_input] with the given bounds: the
    integer, or [None] when it is rejected. *)
Definition int_entry (min_val max_val : option Z) (line : string) : option Z :=
  match int_of_str (str_strip line) with
  | Some value =>
      if below min_val value || above max_val value then None else Some value
  | None => None
  end.

(** The answer that makes the assistant clear the history. *)
Definition confirms (line : string) : bool := String.eqb (str_lower line) "yes".

(** From [c] to [c'] the program only read lines and wrote output: what is
    left of the input is a suffix of what was, the output is extended, and
    the clock and the files are as they were. *)
Definition console_step (c c' : Console) : Prop :=
  (exists consumed, stdin c = consumed ++ stdin c') /\
  clock c' = clock c /\
  CalculationHistory.file (world c') = CalculationHistory.file (world c) /\
  CalculationHistory.read_error (world c')
    = CalculationHistory.read_error (world c) /\
  CalculationHistory.write_error (world c')
    = CalculationHistory.write_error (world c) /\
  CalculationHistory.now (world c') = CalculationHistory.now (world c) /\
  exists out, CalculationHistory.stdout (world c')
              = CalculationHistory.stdout (world c) ++ out.

(** The history [h'] is [h] with entries appended, or [h] itself. *)
Definition appended (h h' : PyObj F) : Prop :=
  h' = h \/ exists l new, h = PList l /\ h' = PList (l ++ new).

(** From [s] to [s'] the assistant read lines and wrote output, kept the
    name of the history file and which files can be opened, and, unless a
    line of the input confirms the clearing, only appended to the history
    and wrote no file. *)
Definition app_step (s s' : App F) : Prop :=
  (exists consumed, stdin (console s) = consumed ++ stdin (console s')) /\
  CalculationHistory.read_error (world (console s'))
    = CalculationHistory.read_error (world (console s)) /\
  CalculationHistory.write_error (world (console s'))
    = CalculationHistory.write_error (world (console s)) /\
  CalculationHistory.filename (app_history s')
    = CalculationHistory.filename (app_history s) /\
  (forallb (fun line => negb (confirms line)) (stdin (console s)) = true ->
   appended (CalculationHistory.history (app_history s))
     (CalculationHistory.history (app_history s')) /\
   CalculationHistory.file (world (console s'))
     = CalculationHistory.file (world (console s))).

(** A step of the assistant that clears nothing: it read lines and wrote
    output, appended to the history at most, and wrote no file. *)
Definition app_quiet_step (s s' : App F) : Prop :=
  (exists consumed, stdin (console s) = consumed ++ stdin (console s')) /\
  CalculationHistory.read_error (world (console s'))
    = CalculationHistory.read_error (world (console s)) /\
  CalculationHistory.write_error (world (console s'))
    = CalculationHistory.write_error (world (console s)) /\
  CalculationHistory.filename (app_history s')
    = CalculationHistory.filename (app_history s) /\
  appended (CalculationHistory.history (app_history s))
    (CalculationHistory.history (app_history s')) /\
  CalculationHistory.file (world (console s'))
    = CalculationHistory.file (world (console s)).

(** What [get_int_input] prints for a line it rejects. *)
Definition int_complaint (min_val max_val : option Z) (line : string) : string :=
  match int_of_str (str_strip line) with
  | Some value =>
      if below min_val value
      then "Value must be at least " ++ bound_text min_val
      else "Value must be at most " ++ bound_text max_val
  | None => msg_invalid_int
  end.



End Frames.

(** A step keeps the relation [R] between the state before and after. *)
Definition io_keeps {S A : Type} (R : S -> S -> Prop) (m : IOS S A) : Prop :=
  forall s r s', m s = (r, s') -> R s s'.

(** A step keeps the relation [R] between the state before and after, and
    the only exception it lets out is [EOFError]. *)
Definition io_ok {S A : Type} (R : S -> S -> Prop) (m : IOS S A) : Prop :=
  forall s r s', m s = (r, s') ->
    R s s' /\ (forall e, r = Fail e -> e = EOFError).

(** The time that the next call of [datetime.now()] gives. *)
Definition next_reading (c : Console) : string :=
  match clock c with
  | t :: _ => t
  | [] => CalculationHistory.now (world c)
  end.

Section RunOutcome.
Context {F : Type} {A : Arith F} {P : PyFloatOps F} {B : PyBuiltins F}.

(** The history after [run]: one entry more when the inputs were read, the
    solver returned a result and the history is a list. *)
Definition history_after_run (k : Kind) (s : App F) : PyObj F :=
  let h := CalculationHistory.history (app_history s) in
  match get_inputs k (console s) with
  | (Done i, _) =>
      match calculate_of i, h with
      | Ok r, PList l =>
          PList (l ++ [CalculationHistory.new_entry (next_reading (console s))
                         (class_name k) (obj_of_inputs (inputs_dict i))
                         (obj_of_results r)])
      | _, _ => h
      end
  | (Fail _, _) => h
  end.

End RunOutcome.

(** Built-ins for the examples: they know a few numerals and leave every
    string as it is. *)
Definition sample_builtins : PyBuiltins float := {|
  str_strip := fun s => s;
  str_lower := fun s => s;
  str_capitalize := fun s => s;
  str_title := fun s => s;
  str_length := String.length;
  float_of_str := fun s =>
    if String.eqb s "20" then Some 20%float
    else if String.eqb s "100" then Some 100%float
    else if String.eqb s "0" then Some 0%float
    else None;
  int_of_str := fun s =>
    if String.eqb s "0" then Some 0%Z
    else if String.eqb s "1" then Some 1%Z
    else if String.eqb s "2" then Some 2%Z
    else if String.eqb s "3" then Some 3%Z
    else if String.eqb s "7" then Some 7%Z
    else None;
  str_of_int := fun _ => "n";
  format_2f := fun _ => "x.xx";
  str_float := fun _ => "x";
  str_obj := fun _ => "{...}";
  str_exn := fun _ => "error"
|}.

(** * Properties *)

(** ** The solvers on sample inputs *)

(** The samples on binary64 take [exact_libm] for the C library's [pow] and
    only square numbers on which every [pow] agrees with it: a square that
    is a binary64 number, or one out of the range of binary64. *)

Example motion_time_5 :
  Motion.calculate (Motion.mkInputs (Some 20%float) None (Some 100%float))
  = Ok [("time", VFloat 5%float)].
Proof. reflexivity. Qed.

Example equation_of_motion_v_6 :
  EquationOfMotion.calculate (P := sample_ops)
    (EquationOfMotion.mkInputs (Some 0%float) None (Some 2%float) (Some 3%float) None)
  = Ok [("final_velocity", VFloat 6%float); ("formula", VStr "v = u + at")].
Proof. reflexivity. Qed.

Example equation_of_motion_u_0 :
  EquationOfMotion.calculate (P := sample_ops)
    (EquationOfMotion.mkInputs None (Some 6%float) (Some 2%float) (Some 3%float) None)
  = Ok [("initial_velocity", VFloat 0%float); ("formula", VStr "v = u + at")].
Proof. reflexivity. Qed.

(** [time ** 2] underflows to zero without an error, and the division by it
    is the one [ZeroDivisionError] the [except] clause catches. *)
Example equation_of_motion_division_by_zero :
  EquationOfMotion.calculate (P := sample_ops)
    (EquationOfMotion.mkInputs (Some 1%float) None None (Some 1e-200%float)
       (Some 1%float))
  = Raise (ValueError msg_division_by_zero).
Proof. reflexivity. Qed.

Example free_fall_overflow :
  py_pow2 (P := sample_ops) 1e200%float = Raise OverflowError.
Proof. reflexivity. Qed.

(** ** Helper lemmas *)

Lemma except_zero_division_ok {A : Type} (a : A) (msg : string) :
  except_zero_division (Ok a) msg = Ok a.
Proof. reflexivity. Qed.

Lemma except_zero_division_never_escapes {A : Type} (c : Exc A) (msg : string) :
  except_zero_division c msg <> Raise ZeroDivisionError.
Proof. destruct c as [a | []]; discriminate. Qed.


(** Whatever the C library's [pow] returns, [x ** 2] raises nothing but
    [OverflowError]. *)
Lemma py_pow2_raises {F : Type} {A : Arith F} {P : PyFloatOps F} (x : F) (e : PyExn) :
  py_pow2 x = Raise e -> e = OverflowError.
Proof.
  unfold py_pow2.
  destruct (fis_nan x); [discriminate|].
  destruct (fis_inf x); [discriminate|].
  destruct (feqb x f0); [discriminate|].
  destruct (feqb _ f1); [discriminate|].
  destruct (fpow2 _) as [ix erange].
  destruct (adjust_erange ix erange); [congruence | discriminate].
Qed.

Ltac three_options i :=
  let v := fresh "x" in let h := fresh "y" in let t := fresh "z" in
  destruct i as [[v|] [h|] [t|]]; cbn [none_count Motion.speed Motion.time
    Motion.distance FreeFall.final_velocity FreeFall.height FreeFall.time].

(** ** Basic motion *)

Section MotionFacts.
Context {F : Type} {A : Arith F}.




Lemma motion_time_zero (t d : F) :
  feqb t f0 = true ->
  Motion.calculate (Motion.mkInputs None (Some t) (Some d))
  = Raise (ValueError msg_time_zero).
Proof. intros H. unfold Motion.calculate, Motion.solve. cbn. now rewrite H. Qed.

Lemma motion_speed_zero (v d : F) :
  feqb v f0 = true ->
  Motion.calculate (Motion.mkInputs (Some v) None (Some d))
  = Raise (ValueError msg_speed_zero).
Proof. intros H. unfold Motion.calculate, Motion.solve. cbn. now rewrite H. Qed.

Lemma motion_count_check (i : Motion.Inputs F) :
  none_count [Motion.speed i; Motion.time i; Motion.distance i] <> 1 ->
  Motion.calculate i = Raise (ValueError msg_exactly_two).
Proof.
  intros H. unfold Motion.calculate.
  destruct (Nat.eqb_spec
    (none_count [Motion.speed i; Motion.time i; Motion.distance i]) 1);
    [contradiction | reflexivity].
Qed.

Lemma motion_no_zero_division (i : Motion.Inputs F) :
  Motion.calculate i <> Raise ZeroDivisionError.
Proof.
  unfold Motion.calculate.
  destruct (negb _); [discriminate | apply except_zero_division_never_escapes].
Qed.

End MotionFacts.

Section FreeFallFacts.
Context {F : Type} {A : Arith F} {P : PyFloatOps F}.

Lemma free_fall_count_check (i : FreeFall.Inputs F) :
  none_count [FreeFall.final_velocity i; FreeFall.height i; FreeFall.time i] <> 1 ->
  FreeFall.calculate i = Raise (ValueError msg_exactly_two).
Proof.
  intros H. unfold FreeFall.calculate.
  destruct (Nat.eqb_spec
    (none_count [FreeFall.final_velocity i; FreeFall.height i; FreeFall.time i]) 1);
    [contradiction | reflexivity].
Qed.

End FreeFallFacts.


(** ** Rounding in the standard model *)

Section RoundedFacts.
Local Open Scope Q_scope.






End RoundedFacts.

(** ** The claims *)

(** C2. For Motion and for FreeFall, an input set whose number of absent
    quantities is not exactly 1 (none absent, or two or three absent) raises
    the [ValueError] "You must provide exactly 2 values!", the validation
    error, and so returns no result. *)
Theorem C2_exactly_one_unknown
    {F : Type} {A : Arith F} {P : PyFloatOps F}
    (m : Motion.Inputs F) (ff : FreeFall.Inputs F) :
  (none_count [Motion.speed m; Motion.time m; Motion.distance m] <> 1 ->
   Motion.calculate m = Raise (ValueError msg_exactly_two)) /\
  (none_count [FreeFall.final_velocity ff; FreeFall.height ff; FreeFall.time ff] <> 1 ->
   FreeFall.calculate ff = Raise (ValueError msg_exactly_two)) /\
  is_validation_error (ValueError msg_exactly_two) = true.
Proof.
  split; [apply motion_count_check | split; [apply free_fall_count_check | reflexivity]].
Qed.

Lemma C2_exactly_one_unknown_witness :
  Motion.calculate (Motion.mkInputs (Some 20%float) (Some 5%float) (Some 100%float))
    = Raise (ValueError msg_exactly_two) /\
  FreeFall.calculate (P := sample_ops) (FreeFall.mkInputs None None (Some 2%float))
    = Raise (ValueError msg_exactly_two).
Proof.
  pose proof (C2_exactly_one_unknown (P := sample_ops)
    (Motion.mkInputs (Some 20%float) (Some 5%float) (Some 100%float))
    (FreeFall.mkInputs None None (Some 2%float))) as [Hm [Hf _]].
  split; [apply Hm | apply Hf]; cbn; lia.
Defined.

(** C8. In the Motion solver, solving for the speed with [time == 0]
    raises the [ValueError] "Time cannot be zero!", and solving for the time
    with [speed == 0] raises the [ValueError] "Speed cannot be zero!"; and
    on no input at all does a [ZeroDivisionError] leave [calculate]. *)
Theorem C8_motion_zero_guards
    {F : Type} {A : Arith F} (x d : F) (i : Motion.Inputs F) :
  feqb x f0 = true ->
  Motion.calculate (Motion.mkInputs None (Some x) (Some d))
    = Raise (ValueError msg_time_zero) /\
  Motion.calculate (Motion.mkInputs (Some x) None (Some d))
    = Raise (ValueError msg_speed_zero) /\
  is_domain_error (ValueError msg_time_zero) = true /\
  is_domain_error (ValueError msg_speed_zero) = true /\
  Motion.calculate i <> Raise ZeroDivisionError.
Proof.
  intros H. repeat split.
  - now apply motion_time_zero.
  - now apply motion_speed_zero.
  - apply motion_no_zero_division.
Qed.

Lemma C8_motion_zero_guards_witness :
  Motion.calculate (Motion.mkInputs None (Some 0%float) (Some 100%float))
    = Raise (ValueError msg_time_zero) /\
  Motion.calculate (Motion.mkInputs (Some 0%float) None (Some 100%float))
    = Raise (ValueError msg_speed_zero).
Proof.
  destruct (C8_motion_zero_guards 0%float 100%float
              (Motion.mkInputs None (Some (-0)%float) (Some 1%float)))
    as [Ht [Hs _]]; [reflexivity | now split].
Defined.

(** Even away from zero, overflow and underflow, the quotient is the
    original quantity up to rounding only: for speed = 0.1 and time = 3 the
    distance [0.1 * 3] divided by the time is not 0.1. *)
Example motion_round_trip_rounding :
  let distance := fmul 0.1%float 3%float in
  Motion.calculate (Motion.mkInputs None (Some 3%float) (Some distance))
    = Ok [("speed", VFloat (fdiv distance 3%float))] /\
  feqb (fdiv distance 3%float) 0.1%float = false.
Proof. split; reflexivity. Qed.





(** ** Free fall, on binary64 floats with [gravity = 9.8] *)

(** With the height absent the solver squares the final velocity, whatever
    the time. *)
Lemma free_fall_solves_height {L : Libm} (v t : float) :
  FreeFall.calculate (FreeFall.mkInputs (Some v) None (Some t))
  = match py_pow2 v with
    | Ok v2 => Ok [("height", VFloat (v2 / (2 * 9.8))%float);
                   ("formula", VStr "v² = 2gh")]
    | Raise _ => Raise OverflowError
    end.
Proof.
  unfold FreeFall.calculate, FreeFall.solve. cbn -[py_pow2].
  destruct (py_pow2 v) as [v2 | e] eqn:E; [reflexivity|].
  apply py_pow2_raises in E. now subst e.
Qed.

(** C3, as the specification states it, fails on both counts.  With
    [time = 2] and the two other quantities absent the solver raises
    "You must provide exactly 2 values!"; and with the height absent and
    [time = 2] the final velocity has to be given, and the height returned is
    computed from it by [v² = 2gh] (0 for a final velocity of 0), not
    [0.5 * 9.8 * 2²]. *)
Lemma C3_counterexample :
  FreeFall.calculate (P := sample_ops) (FreeFall.mkInputs None None (Some 2%float))
    = Raise (ValueError msg_exactly_two) /\
  FreeFall.calculate (P := sample_ops)
    (FreeFall.mkInputs (Some 0%float) None (Some 2%float))
    = Ok [("height", VFloat 0%float); ("formula", VStr FreeFall.label_v2gh)].
Proof. split; reflexivity. Qed.

(** C3, amended.  With [gravity = 9.8] and whatever the C library's [pow]:
    an input with [time = 2], the final velocity absent and the height given
    (any value) yields [final_velocity = 9.8 * 2 = 19.6] by "v = gt"; with
    [time = 2] and both other quantities absent the solver raises "You must
    provide exactly 2 values!"; an input with the height absent and
    [time = 2] has to give the final velocity [v] and yields
    [height = v ** 2 / (2 * 9.8)] by "v² = 2gh", the time being ignored
    ([OverflowError] when [v ** 2] overflows). *)
Theorem C3_free_fall_time_two {L : Libm} (h v : float) :
  FreeFall.calculate (FreeFall.mkInputs None (Some h) (Some 2%float))
    = Ok [("final_velocity", VFloat 19.6%float); ("formula", VStr "v = gt")] /\
  fmul FreeFall.gravity 2%float = 19.6%float /\
  FreeFall.calculate (FreeFall.mkInputs None None (Some 2%float))
    = Raise (ValueError msg_exactly_two) /\
  FreeFall.calculate (FreeFall.mkInputs (Some v) None (Some 2%float))
    = match py_pow2 v with
      | Ok v2 => Ok [("height", VFloat (v2 / (2 * 9.8))%float);
                     ("formula", VStr "v² = 2gh")]
      | Raise _ => Raise OverflowError
      end.
Proof.
  split; [reflexivity | split; [reflexivity | split; [reflexivity|]]].
  apply free_fall_solves_height.
Qed.

(** C9, as stated, fails: with the height absent and a final velocity of
    1e200, [final_velocity ** 2] overflows and the solver raises
    [OverflowError] instead of returning a height. *)
Lemma C9_counterexample :
  none_count [Some 1e200%float; None; Some 1%float] = 1 /\
  FreeFall.calculate (P := sample_ops)
    (FreeFall.mkInputs (Some 1e200%float) None (Some 1%float))
    = Raise OverflowError.
Proof. split; reflexivity. Qed.

(** C9, amended.  For every FreeFall input set with exactly one of the three
    quantities absent, and whatever the C library's [pow], the branch taken
    is determined by which one is absent and no [ValueError] is raised: the
    final velocity absent yields [9.8 * time] with label "v = gt"; the time
    absent yields [final_velocity / 9.8] with label "v = gt"; the height
    absent yields [final_velocity ** 2 / (2 * 9.8)] with label "v² = 2gh",
    unless [final_velocity ** 2] overflows, which raises [OverflowError].
    So the "h = 0.5gt²" branches and the "insufficient data" branch are not
    reached, and [OverflowError] is the only exception. *)
Theorem C9_free_fall_one_absent {L : Libm} (i : FreeFall.Inputs float) :
  none_count [FreeFall.final_velocity i; FreeFall.height i; FreeFall.time i] = 1 ->
  ((exists h t, i = FreeFall.mkInputs None (Some h) (Some t) /\
      FreeFall.calculate i
      = Ok [("final_velocity", VFloat (9.8 * t)%float); ("formula", VStr "v = gt")]) \/
   (exists v h, i = FreeFall.mkInputs (Some v) (Some h) None /\
      FreeFall.calculate i
      = Ok [("time", VFloat (v / 9.8)%float); ("formula", VStr "v = gt")]) \/
   (exists v t, i = FreeFall.mkInputs (Some v) None (Some t) /\
      FreeFall.calculate i
      = match py_pow2 v with
        | Ok v2 => Ok [("height", VFloat (v2 / (2 * 9.8))%float);
                       ("formula", VStr "v² = 2gh")]
        | Raise _ => Raise OverflowError
        end)) /\
  (forall e, FreeFall.calculate i = Raise e -> e = OverflowError) /\
  (forall r, FreeFall.calculate i = Ok r ->
     dict_get r "formula" <> Some (VStr FreeFall.label_hgt2)).
Proof.
  intros H. three_options i; try discriminate H.
  - split; [right; left; exists x, y; split; reflexivity|].
    split; [intros e E | intros r E]; cbv in E; [discriminate|].
    injection E as <-. cbv. discriminate.
  - pose proof (free_fall_solves_height x z) as E.
    split; [right; right; exists x, z; split; [reflexivity | exact E]|].
    rewrite E. destruct (py_pow2 x) as [v2 | e0].
    + split; [discriminate | intros r [= <-]; cbv; discriminate].
    + split; [intros e [= <-]; reflexivity | discriminate].
  - split; [left; exists y, z; split; reflexivity|].
    split; [intros e E | intros r E]; cbv in E; [discriminate|].
    injection E as <-. cbv. discriminate.
Qed.

Lemma C9_free_fall_one_absent_witness :
  FreeFall.calculate (P := sample_ops)
    (FreeFall.mkInputs (Some 14%float) None (Some 2%float))
  = Ok [("height", VFloat (196 / (2 * 9.8))%float); ("formula", VStr "v² = 2gh")].
Proof.
  destruct (proj1 (C9_free_fall_one_absent (L := exact_libm)
              (FreeFall.mkInputs (Some 14%float) None (Some 2%float)) eq_refl))
    as [(h & t & E & _) | [(v & h & E & _) | (v & t & E & H)]];
    try discriminate E.
  injection E as <- <-. exact H.
Defined.

(** ** Equations of motion *)

Section EquationOfMotionFacts.
Context {F : Type} {A : Arith F} {P : PyFloatOps F}.

Import EquationOfMotion.

Ltac five_options i :=
  let u := fresh "u" in let v := fresh "v" in let a := fresh "a" in
  let t := fresh "t" in let s := fresh "s" in
  destruct i as [[u|] [v|] [a|] [t|] [s|]].

(** The chain of tests is the priority rule over the solvable formulas. *)
Lemma calculate_is_by_priority (i : Inputs F) :
  calculate i = calculate_by_priority i.
Proof. five_options i; reflexivity. Qed.

(** No test of the chain holds when no formula is eligible. *)
Lemma solve_insufficient (i : Inputs F) :
  eligible F_vuat i = false ->
  eligible F_sut i = false ->
  eligible F_v2u2 i = false ->
  solve i = Raise (ValueError msg_insufficient).
Proof.
  five_options i; cbn; intros H1 H2 H3;
    try discriminate H1; try discriminate H2; try discriminate H3; reflexivity.
Qed.

(** A result of [try: body / except ZeroDivisionError] is a result of the
    body. *)
Lemma except_zero_division_inv {B : Type} (c : Exc B) (msg : string) (b : B) :
  except_zero_division c msg = Ok b -> c = Ok b.
Proof. destruct c as [x | []]; cbn; congruence. Qed.

Ltac branch_label :=
  repeat match goal with
  | |- context [if ?b then _ else _] => destruct b; cbn -[py_pow2]
  | |- context [py_pow2 ?x] => destruct (py_pow2 x); cbn -[py_pow2]
  | |- context [py_div ?x ?y] => unfold py_div; cbn -[py_pow2]
  | |- context [math_sqrt ?x] => unfold math_sqrt; cbn -[py_pow2]
  end;
  try discriminate; intros E; injection E as <-; reflexivity.

(** Every branch of a formula records that formula's label. *)
Lemma solve_formula_label (f : Formula) (i : Inputs F) (r : Results F) :
  solve_formula f i = Ok r -> formula_of r = Some (VStr (label f)).
Proof.
  destruct f; five_options i; cbn; try discriminate;
    unfold vuat_find_v, vuat_find_u, vuat_find_a, vuat_find_t,
           sut_find_s, sut_find_u, sut_find_a,
           v2u2_find_v, v2u2_find_u, v2u2_find_a, v2u2_find_s, solved;
    cbn -[py_pow2]; branch_label.
Qed.

End EquationOfMotionFacts.

(** C1, as stated, fails.  With u = 1, a = 4, s = 1 and both the final
    velocity and the time absent, formula (1) has two of its four absent,
    formula (2) has exactly one absent (the time) and so is the first
    eligible one; but the solver has no branch solving (2) for the time and
    answers with formula (3). *)
Lemma C1_counterexample :
  let i := EquationOfMotion.mkInputs
             (Some 1%float) None (Some 4%float) None (Some 1%float) in
  EquationOfMotion.first_eligible i = Some EquationOfMotion.F_sut /\
  EquationOfMotion.calculate (P := sample_ops) i
  = Ok [("final_velocity", VFloat 3%float); ("formula", VStr "v² = u² + 2as")].
Proof. split; reflexivity. Qed.

(** C1, amended.  The formulas are tried in the order (1) v = u + at,
    (2) s = ut + 0.5at², (3) v² = u² + 2as, and for every input set the
    solver uses the first formula in this order that has exactly one of its
    four quantities absent and a branch solving for it, where formula (2)
    has no branch for an absent time: the outcome is that of solving that
    formula, a result carries that formula's label, and when there is no
    such formula the solver raises "Insufficient data or invalid combination
    of inputs!".  In particular an input solvable by more than one formula
    gets the earlier one's result and label. *)
Theorem C1_formula_priority
    {F : Type} {A : Arith F} {P : PyFloatOps F} (i : EquationOfMotion.Inputs F) :
  EquationOfMotion.calculate i
  = match EquationOfMotion.first_solvable i with
    | Some f => except_zero_division (EquationOfMotion.solve_formula f i)
                  msg_division_by_zero
    | None => Raise (ValueError msg_insufficient)
    end /\
  (forall r, EquationOfMotion.calculate i = Ok r ->
     exists f, EquationOfMotion.first_solvable i = Some f /\
               EquationOfMotion.formula_of r
               = Some (VStr (EquationOfMotion.label f))) /\
  (forall f g, EquationOfMotion.first_solvable i = Some f ->
     EquationOfMotion.solvable g i = true ->
     match f, g with
     | EquationOfMotion.F_sut, EquationOfMotion.F_vuat
     | EquationOfMotion.F_v2u2, EquationOfMotion.F_vuat
     | EquationOfMotion.F_v2u2, EquationOfMotion.F_sut => False
     | _, _ => True
     end).
Proof.
  split; [apply calculate_is_by_priority | split].
  - intros r. rewrite calculate_is_by_priority.
    unfold EquationOfMotion.calculate_by_priority.
    destruct (EquationOfMotion.first_solvable i) as [f|]; [|discriminate].
    intros E. apply except_zero_division_inv in E.
    exists f. split; [reflexivity | now apply solve_formula_label with (i := i)].
  - intros f g. unfold EquationOfMotion.first_solvable,
      EquationOfMotion.first_such. cbn [find].
    destruct (EquationOfMotion.solvable EquationOfMotion.F_vuat i) eqn:E1;
      [intros [= <-] Hg; now destruct g|].
    destruct (EquationOfMotion.solvable EquationOfMotion.F_sut i) eqn:E2;
      [intros [= <-] Hg; destruct g; trivial; congruence|].
    destruct (EquationOfMotion.solvable EquationOfMotion.F_v2u2 i) eqn:E3;
      [intros [= <-] Hg; destruct g; trivial; congruence | discriminate].
Qed.

(** C6.  For every input set in which none of the three formulas has
    exactly one of its own four quantities absent, the solver raises the
    [ValueError] "Insufficient data or invalid combination of inputs!", the
    validation error, and computes nothing. *)
Theorem C6_no_eligible_formula
    {F : Type} {A : Arith F} {P : PyFloatOps F} (i : EquationOfMotion.Inputs F) :
  EquationOfMotion.eligible EquationOfMotion.F_vuat i = false ->
  EquationOfMotion.eligible EquationOfMotion.F_sut i = false ->
  EquationOfMotion.eligible EquationOfMotion.F_v2u2 i = false ->
  EquationOfMotion.calculate i = Raise (ValueError msg_insufficient) /\
  is_validation_error (ValueError msg_insufficient) = true.
Proof.
  intros H1 H2 H3. split; [|reflexivity].
  unfold EquationOfMotion.calculate.
  now rewrite (solve_insufficient i H1 H2 H3).
Qed.

Lemma C6_no_eligible_formula_witness :
  EquationOfMotion.calculate (P := sample_ops)
    (EquationOfMotion.mkInputs (Some 1%float) None None None (Some 2%float))
  = Raise (ValueError msg_insufficient).
Proof.
  apply (C6_no_eligible_formula (P := sample_ops)
    (EquationOfMotion.mkInputs (Some 1%float) None None None (Some 2%float)));
    reflexivity.
Defined.

(** C7.  When the solver reaches the branch solving [v² = u² + 2as] for the
    final velocity (u, a, s given, v and t absent) and [u² + 2as] is
    negative, or the branch solving it for the initial velocity (v, a, s
    given, u and t absent) and [v² - 2as] is negative, it raises the
    [ValueError] "Cannot calculate square root of negative number!", a domain
    error, and returns no value; so it does for u = 3, a = -10, s = 5. *)
Theorem C7_negative_root_guard
    {F : Type} {A : Arith F} {P : PyFloatOps F} (x a s x2 : F) :
  py_pow2 x = Ok x2 ->
  (fltb (fadd x2 (fmul (fmul f2 a) s)) f0 = true ->
   EquationOfMotion.calculate
     (EquationOfMotion.mkInputs (Some x) None (Some a) None (Some s))
   = Raise (ValueError msg_negative_root)) /\
  (fltb (fsub x2 (fmul (fmul f2 a) s)) f0 = true ->
   EquationOfMotion.calculate
     (EquationOfMotion.mkInputs None (Some x) (Some a) None (Some s))
   = Raise (ValueError msg_negative_root)) /\
  is_domain_error (ValueError msg_negative_root) = true.
Proof.
  intros Hx. repeat split; intros H;
    unfold EquationOfMotion.calculate, EquationOfMotion.solve; cbn;
    [unfold EquationOfMotion.v2u2_find_v | unfold EquationOfMotion.v2u2_find_u];
    rewrite Hx; cbn; rewrite H; reflexivity.
Qed.

Lemma C7_negative_root_guard_witness :
  EquationOfMotion.calculate (P := sample_ops)
    (EquationOfMotion.mkInputs (Some 3%float) None (Some (-10)%float) None
       (Some 5%float))
  = Raise (ValueError msg_negative_root) /\
  EquationOfMotion.calculate (P := sample_ops)
    (EquationOfMotion.mkInputs None (Some 3%float) (Some 10%float) None
       (Some 5%float))
  = Raise (ValueError msg_negative_root).
Proof.
  assert (H : py_pow2 (P := sample_ops) 3%float = Ok 9%float) by reflexivity.
  split.
  - apply (proj1 (C7_negative_root_guard (P := sample_ops)
                    3%float (-10)%float 5%float 9%float H)).
    reflexivity.
  - apply (proj1 (proj2
      (C7_negative_root_guard (P := sample_ops) 3%float 10%float 5%float 9%float H))).
    reflexivity.
Defined.

(** C10, as stated, fails in its second half: with u = 3, a = -10, s = 5
    given and both the final velocity and the time absent, no final velocity
    is computed; the branch raises the negative-root [ValueError]. *)
Lemma C10_counterexample :
  EquationOfMotion.calculate (P := sample_ops)
    (EquationOfMotion.mkInputs (Some 3%float) None (Some (-10)%float) None
       (Some 5%float))
  = Raise (ValueError msg_negative_root).
Proof. reflexivity. Qed.

(** C10, amended.  For every input with the initial velocity, the
    acceleration and the distance given and both the final velocity and the
    time absent (two unknowns among the five), the solver raises no
    validation error: it takes the "v² = u² + 2as" branch, which returns
    [final_velocity = math.sqrt(u² + 2as)] with that label when [u² + 2as]
    is not negative, raises the negative-root [ValueError] when it is, and
    raises [OverflowError] when [u ** 2] overflows. *)
Theorem C10_two_unknowns_accepted
    {F : Type} {A : Arith F} {P : PyFloatOps F} (u a s : F) :
  let i := EquationOfMotion.mkInputs (Some u) None (Some a) None (Some s) in
  none_count [EquationOfMotion.initial_velocity i;
              EquationOfMotion.final_velocity i;
              EquationOfMotion.acceleration i;
              EquationOfMotion.time i;
              EquationOfMotion.distance i] = 2 /\
  EquationOfMotion.calculate i
  = match py_pow2 u with
    | Ok u2 =>
        let velocity_squared := fadd u2 (fmul (fmul f2 a) s) in
        if fltb velocity_squared f0 then Raise (ValueError msg_negative_root)
        else
          match math_sqrt velocity_squared with
          | Ok v => Ok [("final_velocity", VFloat v);
                        ("formula", VStr "v² = u² + 2as")]
          | Raise _ => Raise (ValueError msg_math_domain)
          end
    | Raise _ => Raise OverflowError
    end /\
  (forall e, EquationOfMotion.calculate i = Raise e ->
     is_validation_error e = false).
Proof.
  intros i.
  assert (E : EquationOfMotion.calculate i
    = match py_pow2 u with
      | Ok u2 =>
          let velocity_squared := fadd u2 (fmul (fmul f2 a) s) in
          if fltb velocity_squared f0 then Raise (ValueError msg_negative_root)
          else
            match math_sqrt velocity_squared with
            | Ok v => Ok [("final_velocity", VFloat v);
                          ("formula", VStr "v² = u² + 2as")]
            | Raise _ => Raise (ValueError msg_math_domain)
            end
      | Raise _ => Raise OverflowError
      end).
  { unfold EquationOfMotion.calculate, EquationOfMotion.solve,
      EquationOfMotion.v2u2_find_v, math_sqrt. cbn -[py_pow2].
    destruct (py_pow2 u) as [u2 | e] eqn:Eu; cbn -[py_pow2].
    - destruct (fltb _ _); cbn; try reflexivity.
      destruct (_ && _); reflexivity.
    - apply py_pow2_raises in Eu. now subst e. }
  split; [reflexivity | split; [exact E|]].
  rewrite E. destruct (py_pow2 u) as [u2 | e0]; [|intros e [= <-]; reflexivity].
  cbv zeta. destruct (fltb _ _); [intros e [= <-]; reflexivity|].
  unfold math_sqrt.
  destruct (_ && _); [intros e [= <-]; reflexivity | discriminate].
Qed.

(** ** The calculation history *)

(** ** The calculation history *)

Section HistoryFacts.
Context {F : Type} {J : Json F}.

Import CalculationHistory.

Lemma print_file (line : string) (w : World) : file (print line w) = file w.
Proof. reflexivity. Qed.

(** A successful [save_history] leaves the file holding the history. *)
Lemma save_history_persists (self : t F) (w : World) :
  write_error w (filename self) = None ->
  persisted self (save_history self w).
Proof.
  intros H. unfold persisted, save_history. rewrite H. cbn.
  now rewrite String.eqb_refl.
Qed.

(** A failed one leaves every file as it was. *)
Lemma save_history_fails (self : t F) (w : World) (error : string) :
  write_error w (filename self) = Some error ->
  save_history self w = print (warn_save error) w.
Proof. intros H. unfold save_history. now rewrite H. Qed.

Lemma exit_persists (self : t F) (w : World) (exc : option string) :
  write_error w (filename self) = None ->
  persisted self (exit self w exc).
Proof.
  intros H. unfold exit, persisted.
  destruct exc; rewrite ?print_file; now apply save_history_persists.
Qed.

Lemma clear_history_persists (self : t F) (w : World) :
  write_error w (filename self) = None ->
  history (fst (clear_history self w)) = PList [] /\
  persisted (fst (clear_history self w)) (snd (clear_history self w)).
Proof.
  intros H. split; [reflexivity|].
  unfold clear_history, persisted. cbn [fst snd].
  rewrite print_file. now apply save_history_persists.
Qed.

End HistoryFacts.

(** C4, as stated, fails: [add_calculation] does not write the file.
    Starting with no history file, after one calculation is added the
    history in memory has one entry and there is still no file. *)
Lemma C4_counterexample :
  let w0 := CalculationHistory.mkWorld (fun _ => None) (fun _ => None)
              (fun _ => None) "2026-01-01 12:00:00" [] in
  let inputs := obj_of_inputs
                  [("speed", Some 20%float); ("time", None);
                   ("distance", Some 100%float)] in
  let results := obj_of_results [("time", VFloat 5%float)] in
  exists h0 h1 entry,
    CalculationHistory.init (J := sample_json) "physics_history.json" w0
      = (Done h0, w0) /\
    CalculationHistory.add_calculation h0 w0 "Motion" inputs results
      = (Done h1, w0) /\
    CalculationHistory.history h1 = PList [entry] /\
    CalculationHistory.file w0 "physics_history.json" = None /\
    ~ CalculationHistory.persisted (J := sample_json) h1 w0.
Proof.
  cbv zeta. eexists _, _, _.
  split; [reflexivity | split; [reflexivity | split; [reflexivity|]]].
  split; [reflexivity | discriminate].
Qed.

(** C4, amended.  Whenever the history file can be opened for writing:
    [clear_history] empties the history and rewrites the file, which then
    holds the empty history; leaving the [with] block ([__exit__], with or
    without an exception) rewrites the file, which then holds the history in
    memory.  [add_calculation] writes no file: on a history that is a list
    it appends the new entry in memory, and the entry reaches the file only
    at exit, while a [clear_history] before the exit discards it (the file
    then holds the empty history); on a history that is not a list (loaded
    from a file that held another JSON value) it raises [AttributeError]. *)
Theorem C4_history_persistence
    {F : Type} {J : Json F} (self : CalculationHistory.t F)
    (w : CalculationHistory.World)
    (topic : string) (inputs results : PyObj F) (exc : option string) :
  CalculationHistory.write_error w (CalculationHistory.filename self) = None ->
  let entry := CalculationHistory.new_entry (CalculationHistory.now w)
                 topic inputs results in
  let cleared := CalculationHistory.clear_history self w in
  let added := CalculationHistory.add_calculation self w topic inputs results in
  (CalculationHistory.history (fst cleared) = PList [] /\
   CalculationHistory.persisted (fst cleared) (snd cleared)) /\
  CalculationHistory.persisted self (CalculationHistory.exit self w exc) /\
  snd added = w /\
  (forall l, CalculationHistory.history self = PList l ->
     exists self',
       fst added = Done self' /\
       CalculationHistory.filename self' = CalculationHistory.filename self /\
       CalculationHistory.history self' = PList (l ++ [entry]) /\
       CalculationHistory.persisted self' (CalculationHistory.exit self' w exc) /\
       let cleared' := CalculationHistory.clear_history self' w in
       CalculationHistory.history (fst cleared') = PList [] /\
       CalculationHistory.persisted (fst cleared') (snd cleared')) /\
  ((forall l, CalculationHistory.history self <> PList l) ->
   fst added = Fail AttributeError).
Proof.
  intros H entry cleared added.
  split; [now apply clear_history_persists|].
  split; [now apply exit_persists|].
  unfold added, CalculationHistory.add_calculation.
  split; [now destruct (CalculationHistory.history self)|].
  split.
  - intros l E. rewrite E. eexists. split; [reflexivity|].
    split; [reflexivity | split; [reflexivity|]].
    split; [now apply exit_persists | now apply clear_history_persists].
  - intros N. destruct (CalculationHistory.history self); try reflexivity.
    now destruct (N l).
Qed.

Lemma C4_history_persistence_witness :
  let w0 := CalculationHistory.mkWorld (fun _ => None) (fun _ => None)
              (fun _ => None) "2026-01-01 12:00:00" [] in
  let h0 := CalculationHistory.mk "physics_history.json" (PList []) in
  let inputs := obj_of_inputs
                  [("speed", Some 20%float); ("time", None);
                   ("distance", Some 100%float)] in
  let results := obj_of_results [("time", VFloat 5%float)] in
  exists h1,
    fst (CalculationHistory.add_calculation h0 w0 "Motion" inputs results)
      = Done h1 /\
    CalculationHistory.persisted (J := sample_json) h1
      (CalculationHistory.exit (J := sample_json) h1 w0 None).
Proof.
  intros w0 h0 inputs results.
  assert (H : CalculationHistory.write_error w0 (CalculationHistory.filename h0)
              = None) by reflexivity.
  destruct (proj1 (proj2 (proj2 (proj2
    (C4_history_persistence (J := sample_json) h0 w0 "Motion" inputs results
       None H)))) [] eq_refl) as (h1 & E1 & _ & _ & E2 & _).
  exists h1. split; [exact E1 | exact E2].
Defined.

(** * Further properties of the program *)

(** ** The solvers *)

Ltac split_options i :=
  match type of i with
  | Motion.Inputs _ => destruct i as [[?|] [?|] [?|]]
  | FreeFall.Inputs _ => destruct i as [[?|] [?|] [?|]]
  | EquationOfMotion.Inputs _ => destruct i as [[?|] [?|] [?|] [?|] [?|]]
  end.

Ltac unfold_branches :=
  unfold EquationOfMotion.vuat_find_v, EquationOfMotion.vuat_find_u,
    EquationOfMotion.vuat_find_a, EquationOfMotion.vuat_find_t,
    EquationOfMotion.sut_find_s, EquationOfMotion.sut_find_u,
    EquationOfMotion.sut_find_a, EquationOfMotion.v2u2_find_v,
    EquationOfMotion.v2u2_find_u, EquationOfMotion.v2u2_find_a,
    EquationOfMotion.v2u2_find_s, EquationOfMotion.solved, FreeFall.solved,
    py_div, math_sqrt in *.

(** Case analysis on every test a solver makes on its numbers and on the
    outcome of every square. *)
Ltac split_tests :=
  repeat match goal with
  | H : context [if ?b then _ else _] |- _ =>
      destruct b eqn:?; cbn -[py_pow2] in H
  | H : context [py_pow2 ?x] |- _ =>
      let E := fresh "Epow" in
      destruct (py_pow2 x) eqn:E;
        [clear E | apply py_pow2_raises in E; subst]; cbn -[py_pow2] in H
  end.

Section SolverFacts.
Context {F : Type} {A : Arith F} {P : PyFloatOps F}.

Lemma motion_calculate_cases (i : Motion.Inputs F) (e : PyExn) :
  Motion.calculate i = Raise e ->
  e = ValueError msg_exactly_two \/ e = ValueError msg_time_zero \/
  e = ValueError msg_speed_zero.
Proof.
  split_options i; unfold Motion.calculate, Motion.solve; cbn;
    unfold py_div; intros H; split_tests; try discriminate H;
    injection H as <-; auto.
Qed.

Lemma equation_of_motion_raises (i : EquationOfMotion.Inputs F) (e : PyExn) :
  EquationOfMotion.calculate i = Raise e ->
  e = OverflowError \/ exists m, e = ValueError m.
Proof.
  split_options i; unfold EquationOfMotion.calculate, EquationOfMotion.solve;
    cbn -[py_pow2]; unfold_branches; intros H; split_tests; try discriminate H;
    injection H as <-; eauto.
Qed.

Lemma free_fall_raises (i : FreeFall.Inputs F) (e : PyExn) :
  FreeFall.calculate i = Raise e ->
  e = OverflowError \/ exists m, e = ValueError m.
Proof.
  split_options i; unfold FreeFall.calculate, FreeFall.solve;
    cbn -[py_pow2]; unfold_branches; intros H; split_tests; try discriminate H;
    injection H as <-; eauto.
Qed.

End SolverFacts.

(** X1.  Whatever the inputs, a solver ([calculate] of any of the three
    classes) ends with a result, a [ValueError] or an [OverflowError]:
    neither a [TypeError] from arithmetic on an absent quantity nor a
    [ZeroDivisionError] leaves it. *)
Theorem X1_solvers_raise_only_value_or_overflow
    {F : Type} {A : Arith F} {P : PyFloatOps F} (i : CalcInputs F) (e : PyExn) :
  calculate_of i = Raise e ->
  e = OverflowError \/ exists m, e = ValueError m.
Proof.
  destruct i as [i | i | i]; cbn.
  - intros H. destruct (motion_calculate_cases i e H) as [-> | [-> | ->]]; eauto.
  - apply equation_of_motion_raises.
  - apply free_fall_raises.
Qed.

Lemma X1_solvers_raise_only_value_or_overflow_witness :
  OverflowError = OverflowError \/ exists m, OverflowError = ValueError m.
Proof.
  apply (X1_solvers_raise_only_value_or_overflow (P := sample_ops)
           (FreeFallInputs (FreeFall.mkInputs (Some 1e200%float) None (Some 1%float)))).
  reflexivity.
Defined.



(** X3.  With exactly one of the five quantities absent, the
    EquationOfMotion solver uses "s = ut + 0.5at²" when the distance is the
    absent one and "v = u + at" otherwise; "v² = u² + 2as" is never used. *)
Theorem X3_one_unknown_of_five
    {F : Type} {A : Arith F} {P : PyFloatOps F} (i : EquationOfMotion.Inputs F) :
  none_count [EquationOfMotion.initial_velocity i;
              EquationOfMotion.final_velocity i;
              EquationOfMotion.acceleration i;
              EquationOfMotion.time i;
              EquationOfMotion.distance i] = 1 ->
  EquationOfMotion.first_solvable i
  = Some (if is_none (EquationOfMotion.distance i)
          then EquationOfMotion.F_sut else EquationOfMotion.F_vuat) /\
  (forall r, EquationOfMotion.calculate i = Ok r ->
     EquationOfMotion.formula_of r
     = Some (VStr (if is_none (EquationOfMotion.distance i)
                   then EquationOfMotion.label_sut
                   else EquationOfMotion.label_vuat))).
Proof.
  intros H.
  assert (E : EquationOfMotion.first_solvable i
    = Some (if is_none (EquationOfMotion.distance i)
            then EquationOfMotion.F_sut else EquationOfMotion.F_vuat)).
  { split_options i; cbn in H; try discriminate H; reflexivity. }
  split; [exact E|].
  intros r Hr. rewrite calculate_is_by_priority in Hr.
  unfold EquationOfMotion.calculate_by_priority in Hr. rewrite E in Hr.
  apply except_zero_division_inv, solve_formula_label in Hr.
  rewrite Hr. now destruct (is_none (EquationOfMotion.distance i)).
Qed.

Lemma X3_one_unknown_of_five_witness :
  EquationOfMotion.first_solvable
    (EquationOfMotion.mkInputs (Some 1%float) (Some 3%float) (Some 4%float)
       (Some 0.5%float) None)
  = Some EquationOfMotion.F_sut.
Proof.
  apply (proj1 (X3_one_unknown_of_five (P := sample_ops)
    (EquationOfMotion.mkInputs (Some 1%float) (Some 3%float) (Some 4%float)
       (Some 0.5%float) None) eq_refl)).
Defined.

Section ResultShape.
Context {F : Type} {A : Arith F} {P : PyFloatOps F}.

Ltac shape :=
  intros H; split_tests; try discriminate H; injection H as <-;
  eexists _, _; (split; [|eauto]); reflexivity.

Lemma motion_solves_for (i : Motion.Inputs F) (r : Results F) :
  Motion.calculate i = Ok r -> solves_for (MotionInputs i) r.
Proof.
  split_options i; unfold Motion.calculate, Motion.solve; cbn;
    unfold py_div; shape.
Qed.

Lemma equation_of_motion_solves_for (i : EquationOfMotion.Inputs F) (r : Results F) :
  EquationOfMotion.calculate i = Ok r -> solves_for (EquationOfMotionInputs i) r.
Proof.
  split_options i; unfold EquationOfMotion.calculate, EquationOfMotion.solve;
    cbn -[py_pow2]; unfold_branches; shape.
Qed.

Lemma free_fall_solves_for (i : FreeFall.Inputs F) (r : Results F) :
  FreeFall.calculate i = Ok r -> solves_for (FreeFallInputs i) r.
Proof.
  split_options i; unfold FreeFall.calculate, FreeFall.solve;
    cbn -[py_pow2]; unfold_branches; shape.
Qed.

Lemma calculate_of_solves_for (i : CalcInputs F) (r : Results F) :
  calculate_of i = Ok r -> solves_for i r.
Proof.
  destruct i; cbn;
    [apply motion_solves_for | apply equation_of_motion_solves_for
    | apply free_fall_solves_for].
Qed.

End ResultShape.

(** X4.  Every result of a solver holds exactly one number, under the name
    of a quantity that was absent from the inputs, followed for
    EquationOfMotion and FreeFall by the formula label: a solver never
    returns a quantity the user gave, and never more than one. *)
Theorem X4_result_is_one_absent_quantity
    {F : Type} {A : Arith F} {P : PyFloatOps F}
    (i : CalcInputs F) (r : Results F) :
  calculate_of i = Ok r ->
  exists key x,
    dict_get (inputs_dict i) key = Some None /\
    (r = [(key, VFloat x)] \/
     exists label, r = [(key, VFloat x); ("formula", VStr label)]).
Proof. apply calculate_of_solves_for. Qed.

Lemma X4_result_is_one_absent_quantity_witness :
  exists key x,
    dict_get (inputs_dict (MotionInputs
      (Motion.mkInputs (Some 20%float) None (Some 100%float)))) key = Some None /\
    ([("time", VFloat 5%float)] = [(key, VFloat x)] \/
     exists label,
       [("time", VFloat 5%float)] = [(key, VFloat x); ("formula", VStr label)]).
Proof.
  apply (X4_result_is_one_absent_quantity (P := sample_ops)
    (MotionInputs (Motion.mkInputs (Some 20%float) None (Some 100%float)))).
  reflexivity.
Defined.

(** X5.  The last branch of the EquationOfMotion chain, which would solve
    "v² = u² + 2as" for the distance, is never taken: whenever the distance
    is the absent quantity of that formula, an earlier branch applies.  So a
    result labelled "v² = u² + 2as" never holds a distance; and that formula
    is used only when the time is absent as well. *)
Theorem X5_v2u2_never_solves_distance
    {F : Type} {A : Arith F} {P : PyFloatOps F}
    (i : EquationOfMotion.Inputs F) (r : Results F) :
  EquationOfMotion.calculate i = Ok r ->
  EquationOfMotion.formula_of r = Some (VStr EquationOfMotion.label_v2u2) ->
  dict_get r "distance" = None /\
  EquationOfMotion.time i = None.
Proof.
  split_options i; unfold EquationOfMotion.calculate, EquationOfMotion.solve;
    cbn -[py_pow2]; unfold_branches; intros H; split_tests; try discriminate H;
    injection H as <-; cbn; intros L; try discriminate L; split; reflexivity.
Qed.

Lemma X5_v2u2_never_solves_distance_witness :
  dict_get [("final_velocity", VFloat 3%float);
            ("formula", @VStr float EquationOfMotion.label_v2u2)] "distance"
  = None /\
  EquationOfMotion.time
    (EquationOfMotion.mkInputs (Some 1%float) None (Some 4%float) None
       (Some 1%float)) = None.
Proof.
  apply (X5_v2u2_never_solves_distance (P := sample_ops)
    (EquationOfMotion.mkInputs (Some 1%float) None (Some 4%float) None
       (Some 1%float))); reflexivity.
Defined.

(** X23.  The zero guards of the EquationOfMotion solver, each on the input
    pattern that reaches it: solving "v = u + at" for the acceleration with
    [time == 0], or for the time with [acceleration == 0]; solving
    "s = ut + 0.5at²" for the initial velocity or for the acceleration with
    [time == 0]; solving "v² = u² + 2as" for the acceleration with
    [distance == 0].  Each raises its own [ValueError] before any division.
    The handler "Division by zero error!" is still reached in one case:
    solving "s = ut + 0.5at²" for the acceleration with a time that is not
    zero but whose square underflows to zero. *)
Theorem X23_equation_of_motion_zero_guards
    {F : Type} {A : Arith F} {P : PyFloatOps F} (z x y w : F) (o : option F) :
  feqb z f0 = true ->
  EquationOfMotion.calculate
    (EquationOfMotion.mkInputs (Some x) (Some y) None (Some z) o)
    = Raise (ValueError msg_time_zero) /\
  EquationOfMotion.calculate
    (EquationOfMotion.mkInputs (Some x) (Some y) (Some z) None o)
    = Raise (ValueError msg_acceleration_zero) /\
  EquationOfMotion.calculate
    (EquationOfMotion.mkInputs None None (Some x) (Some z) (Some y))
    = Raise (ValueError msg_time_zero) /\
  EquationOfMotion.calculate
    (EquationOfMotion.mkInputs (Some x) None None (Some z) (Some y))
    = Raise (ValueError msg_time_zero) /\
  EquationOfMotion.calculate
    (EquationOfMotion.mkInputs (Some x) (Some y) None None (Some z))
    = Raise (ValueError msg_distance_zero) /\
  (feqb w f0 = false -> py_pow2 w = Ok z ->
   EquationOfMotion.calculate
     (EquationOfMotion.mkInputs (Some x) None None (Some w) (Some y))
   = Raise (ValueError msg_division_by_zero)).
Proof.
  intros H.
  repeat match goal with |- _ /\ _ => split end;
    try (destruct o; unfold EquationOfMotion.calculate, EquationOfMotion.solve;
         cbn -[py_pow2]; unfold_branches; rewrite H; reflexivity).
  intros Hw Hp. unfold EquationOfMotion.calculate, EquationOfMotion.solve. cbn.
  unfold EquationOfMotion.sut_find_a. rewrite Hw, Hp. cbn.
  unfold py_div. now rewrite H.
Qed.

Lemma X23_equation_of_motion_zero_guards_witness :
  EquationOfMotion.calculate (P := sample_ops)
    (EquationOfMotion.mkInputs (Some 1%float) (Some 2%float) None
       (Some 0%float) None)
    = Raise (ValueError msg_time_zero) /\
  EquationOfMotion.calculate (P := sample_ops)
    (EquationOfMotion.mkInputs (Some 1%float) None None (Some 1e-200%float)
       (Some 2%float))
    = Raise (ValueError msg_division_by_zero).
Proof.
  pose proof (X23_equation_of_motion_zero_guards (P := sample_ops)
                0%float 1%float 2%float 1e-200%float None eq_refl)
    as (H1 & _ & _ & _ & _ & H6).
  split; [exact H1 | apply H6; reflexivity].
Defined.


(** ** The history object *)

Section HistoryMore.
Context {F : Type} {J : Json F}.

Import CalculationHistory.

Lemma init_facts (name : string) (w : World) :
  match init name w with
  | (Done h, w') =>
      filename h = name /\ history h = loaded_value name w /\
      file w' = file w /\ read_error w' = read_error w /\
      write_error w' = write_error w /\ now w' = now w /\
      exists out, stdout w' = (stdout w ++ out)%list
  | (Fail e, w') =>
      w' = w /\
      exists text,
        file w name = Some text /\ read_error w name = None /\
        json_load text = Uncaught e
  end.
Proof.
  unfold init, load_history, loaded_value. cbn.
  destruct (file w name) as [text|] eqn:Ef.
  - destruct (read_error w name) as [error|] eqn:Er.
    + cbn. repeat split. now exists [warn_load error].
    + destruct (json_load text) as [v | error | e] eqn:El; cbn.
      * repeat split. exists []. now rewrite app_nil_r.
      * repeat split. now exists [warn_load error].
      * split; [reflexivity|]. exists text. repeat split; assumption.
  - cbn. repeat split. exists []. now rewrite app_nil_r.
Qed.

End HistoryMore.

(** X7.  Starting the program and leaving it at once.  Creating the history
    object writes no file.  When the constructor returns and the file can be
    opened for writing, the [__exit__] that follows rewrites the history
    file with [json.dump] of what [json.load] had read from it (any JSON
    value, not only a list) and of the empty list when the file was missing,
    unreadable or not JSON; no other file changes.  When [json.load] raises
    another exception than those two ([UnicodeDecodeError] for a file that
    is not text in the expected encoding), the constructor lets it out and
    has written and printed nothing. *)
Theorem X7_load_then_save
    {F : Type} {J : Json F} (name : string) (w : CalculationHistory.World)
    (exc : option string) :
  CalculationHistory.write_error w name = None ->
  match CalculationHistory.init name w with
  | (Done h, w1) =>
      let w2 := CalculationHistory.exit h w1 exc in
      CalculationHistory.file w1 = CalculationHistory.file w /\
      CalculationHistory.history h = CalculationHistory.loaded_value name w /\
      CalculationHistory.file w2 name
      = Some (json_dump (CalculationHistory.loaded_value name w)) /\
      (forall other, String.eqb other name = false ->
         CalculationHistory.file w2 other = CalculationHistory.file w other)
  | (Fail e, w1) =>
      w1 = w /\
      exists text,
        CalculationHistory.file w name = Some text /\
        CalculationHistory.read_error w name = None /\
        json_load text = Uncaught e
  end.
Proof.
  intros H. pose proof (init_facts name w) as I.
  destruct (CalculationHistory.init name w) as [[h | e] w1].
  - destruct I as (Hn & Hh & Hf & _ & Hw & _ & _).
    cbv zeta. split; [exact Hf | split; [exact Hh|]].
    assert (E : CalculationHistory.save_history h w1
                = CalculationHistory.write_file name
                    (json_dump (CalculationHistory.loaded_value name w)) w1).
    { unfold CalculationHistory.save_history. now rewrite Hn, Hw, H, Hh. }
    unfold CalculationHistory.exit. rewrite E.
    split.
    + destruct exc; cbn; now rewrite String.eqb_refl.
    + intros other Ho. destruct exc; cbn; now rewrite Ho, Hf.
  - destruct I as (-> & text & Hf & Hr & Hl).
    split; [reflexivity|]. now exists text.
Qed.

Lemma X7_load_then_save_witness :
  let json := {| json_dump := fun _ : PyObj float => "[]";
                 json_load := fun _ => JSONDecodeError "Expecting value" |} in
  let w := CalculationHistory.mkWorld (fun _ => Some "not json")
             (fun _ => None) (fun _ => None) "2026-01-01 12:00:01" [] in
  match CalculationHistory.init (J := json) "physics_history.json" w with
  | (Done h, w1) =>
      CalculationHistory.history h = PList [] /\
      CalculationHistory.file (CalculationHistory.exit (J := json) h w1 None)
        "physics_history.json" = Some "[]"
  | (Fail _, _) => False
  end.
Proof.
  intros json w.
  pose proof (X7_load_then_save (J := json) "physics_history.json" w None
                eq_refl) as H.
  cbn in H. destruct H as (_ & H2 & H3 & _).
  cbn. split; [exact H2 | exact H3].
Defined.



(** ** Reading from the console *)

Section ConsoleFacts.
Context {F : Type} {B : PyBuiltins F}.
Local Open Scope list_scope.

Lemma console_step_refl (c : Console) : console_step c c.
Proof.
  repeat split; [now exists [] | exists []; now rewrite app_nil_r].
Qed.

Lemma console_step_trans (c1 c2 c3 : Console) :
  console_step c1 c2 -> console_step c2 c3 -> console_step c1 c3.
Proof.
  intros ([l1 E1] & K1 & F1 & R1 & O1 & N1 & [o1 S1])
         ([l2 E2] & K2 & F2 & R2 & O2 & N2 & [o2 S2]).
  repeat split; try congruence.
  - exists (l1 ++ l2). now rewrite E1, E2, app_assoc.
  - exists (o1 ++ o2)%list. now rewrite S2, S1, app_assoc.
Qed.

Lemma console_step_write (s : string) (c : Console) :
  console_step c (write s c).
Proof. repeat split; [now exists [] | now exists [s]]. Qed.

(** Reading one line and writing. *)
Lemma console_step_read (line : string) (rest : list string) (c c' : Console) :
  stdin c = line :: rest ->
  console_step (with_stdin rest c) c' ->
  console_step c c'.
Proof.
  intros E ([l1 E1] & K1 & F1 & R1 & O1 & N1 & S1). repeat split; auto.
  exists (line :: l1). cbn in E1. now rewrite E, E1.
Qed.

Lemma with_stdin_write (lines : list string) (s : string) (c : Console) :
  with_stdin lines (write s c) = write s (with_stdin lines c).
Proof. reflexivity. Qed.

(** The loop of [get_float_input], started on the lines of its console. *)
Lemma get_float_loop_step (prompt : string) (lines : list string) :
  forall (c : Console) r c',
    get_float_loop prompt lines c = (r, c') ->
    console_step (with_stdin lines c) c' /\
    match r with
    | Done _ => length (stdin c') < length lines
    | Fail e => e = EOFError /\ stdin c' = []
    end.
Proof.
  induction lines as [|line rest IH]; intros c r c' H; cbn in H.
  - injection H as <- <-. split; [|now split].
    exact (console_step_write prompt (with_stdin [] c)).
  - assert (W : console_step (with_stdin rest (write prompt c)) c' ->
                console_step (with_stdin (line :: rest) c) c').
    { intros K. apply console_step_read with (line := line) (rest := rest);
        [reflexivity|].
      eapply console_step_trans; [|exact K].
      cbn. apply (console_step_write prompt (with_stdin rest c)). }
    destruct (String.eqb (str_strip line) "").
    { injection H as <- <-. split; [apply W, console_step_refl | cbn; lia]. }
    destruct (float_of_str (str_strip line)).
    { injection H as <- <-. split; [apply W, console_step_refl | cbn; lia]. }
    apply IH in H. destruct H as [K L]. split.
    + apply W. eapply console_step_trans; [|exact K].
      exact (console_step_write msg_invalid_float
               (with_stdin rest (write prompt c))).
    + destruct r; cbn; [lia | exact L].
Qed.

Lemma get_int_loop_step (prompt : string) (lo hi : option Z) (lines : list string) :
  forall (c : Console) r c',
    get_int_loop prompt lo hi lines c = (r, c') ->
    console_step (with_stdin lines c) c' /\
    match r with
    | Done v => length (stdin c') < length lines /\
                below lo v = false /\ above hi v = false /\
                exists line, In line lines /\ int_of_str (str_strip line) = Some v
    | Fail e => e = EOFError /\ stdin c' = []
    end.
Proof.
  induction lines as [|line rest IH]; intros c r c' H; cbn in H.
  - injection H as <- <-. split; [|now split].
    exact (console_step_write prompt (with_stdin [] c)).
  - assert (W : console_step (with_stdin rest (write prompt c)) c' ->
                console_step (with_stdin (line :: rest) c) c').
    { intros K. apply console_step_read with (line := line) (rest := rest);
        [reflexivity|].
      eapply console_step_trans; [|exact K].
      cbn. apply (console_step_write prompt (with_stdin rest c)). }
    assert (Again : forall msg,
      get_int_loop prompt lo hi rest (write msg (write prompt c)) = (r, c') ->
      console_step (with_stdin (line :: rest) c) c' /\
      match r with
      | Done v => length (stdin c') < length (line :: rest) /\
                  below lo v = false /\ above hi v = false /\
                  exists l, In l (line :: rest) /\
                            int_of_str (str_strip l) = Some v
      | Fail e => e = EOFError /\ stdin c' = []
      end).
    { intros msg H'. apply IH in H'. destruct H' as [K L]. split.
      - apply W. eapply console_step_trans; [|exact K].
        exact (console_step_write msg (with_stdin rest (write prompt c))).
      - destruct r; [|exact L].
        destruct L as (L1 & L2 & L3 & l & L4 & L5).
        repeat split; cbn; try lia; auto. exists l. split; [now right | exact L5]. }
    destruct (int_of_str (str_strip line)) as [v|] eqn:E; [|now apply Again in H].
    destruct (below lo v) eqn:Eb; [now apply Again in H|].
    destruct (above hi v) eqn:Ea; [now apply Again in H|].
    injection H as <- <-. split; [apply W, console_step_refl|].
    repeat split; cbn; try lia; auto. exists line. split; [now left | exact E].
Qed.

End ConsoleFacts.

Section ReadingFacts.
Context {F : Type} {B : PyBuiltins F}.
Local Open Scope list_scope.

Lemma get_float_loop_accepts (prompt line : string) (v : option F)
    (rest : list string) :
  float_entry line = Some v ->
  forall (skipped : list string) (c : Console),
    forallb (fun l => is_none (float_entry l)) skipped = true ->
    get_float_loop prompt (skipped ++ line :: rest) c
    = (Done v,
       with_stdin rest
         (print_lines
            (flat_map (fun _ => [prompt; msg_invalid_float]) skipped ++ [prompt])
            c)).
Proof.
  intros Hv. induction skipped as [|l sk IH]; intros c Hs; cbn.
  - unfold float_entry in Hv.
    destruct (String.eqb (str_strip line) "").
    + now injection Hv as <-.
    + destruct (float_of_str (str_strip line)); [now injection Hv as <-|].
      discriminate Hv.
  - cbn in Hs. apply andb_prop in Hs. destruct Hs as [Hl Hs].
    unfold float_entry in Hl.
    destruct (String.eqb (str_strip l) ""); [discriminate Hl|].
    destruct (float_of_str (str_strip l)); [discriminate Hl|].
    now rewrite IH.
Qed.

Lemma get_float_loop_eof (prompt : string) :
  forall (lines : list string) (c : Console),
    forallb (fun l => is_none (float_entry l)) lines = true ->
    get_float_loop prompt lines c
    = (Fail EOFError,
       with_stdin []
         (print_lines
            (flat_map (fun _ => [prompt; msg_invalid_float]) lines ++ [prompt])
            c)).
Proof.
  induction lines as [|l sk IH]; intros c Hs; cbn; [reflexivity|].
  cbn in Hs. apply andb_prop in Hs. destruct Hs as [Hl Hs].
  unfold float_entry in Hl.
  destruct (String.eqb (str_strip l) ""); [discriminate Hl|].
  destruct (float_of_str (str_strip l)); [discriminate Hl|].
  now rewrite IH.
Qed.

Lemma get_int_loop_accepts (prompt line : string) (lo hi : option Z) (v : Z)
    (rest : list string) :
  int_entry lo hi line = Some v ->
  forall (skipped : list string) (c : Console),
    forallb (fun l => is_none (int_entry lo hi l)) skipped = true ->
    get_int_loop prompt lo hi (skipped ++ line :: rest) c
    = (Done v,
       with_stdin rest
         (print_lines
            (flat_map (fun l => [prompt; int_complaint lo hi l]) skipped
             ++ [prompt])
            c)).
Proof.
  intros Hv. induction skipped as [|l sk IH]; intros c Hs; cbn.
  - unfold int_entry in Hv.
    destruct (int_of_str (str_strip line)) as [x|]; [|discriminate Hv].
    destruct (below lo x); [discriminate Hv|].
    destruct (above hi x); [discriminate Hv|]. now injection Hv as <-.
  - cbn in Hs. apply andb_prop in Hs. destruct Hs as [Hl Hs].
    unfold int_entry in Hl. unfold int_complaint.
    destruct (int_of_str (str_strip l)) as [x|]; [|now rewrite IH].
    destruct (below lo x); [now rewrite IH|].
    destruct (above hi x); [now rewrite IH | discriminate Hl].
Qed.

End ReadingFacts.

(** X10.  [get_float_input] answers with the first line that is blank
    (after [strip]) or that [float] accepts: [None] for a blank one, the
    number otherwise.  It has then read exactly the lines up to that one,
    and written the prompt once per line read and the message "Invalid
    input! ..." once per rejected line, in that order. *)
Theorem X10_get_float_input_first_accepted
    {F : Type} {B : PyBuiltins F}
    (prompt line : string) (v : option F) (skipped rest : list string)
    (c : Console) :
  stdin c = (skipped ++ line :: rest)%list ->
  forallb (fun l => is_none (float_entry l)) skipped = true ->
  float_entry line = Some v ->
  get_float_input prompt c
  = (Done v,
     with_stdin rest
       (print_lines
          (flat_map (fun _ => [prompt; msg_invalid_float]) skipped ++ [prompt])%list
          c)).
Proof.
  intros E Hs Hv. unfold get_float_input. rewrite E.
  now apply get_float_loop_accepts.
Qed.

Lemma X10_get_float_input_first_accepted_witness :
  let w := CalculationHistory.mkWorld (fun _ => None) (fun _ => None) (fun _ => None)
             "2026-01-01 12:00:00" [] in
  let c := mkConsole ["abc"; "20"; "100"] [] w in
  get_float_input (B := sample_builtins) "Speed (m/s): " c
  = (Done (Some 20%float),
     mkConsole ["100"] []
       (CalculationHistory.mkWorld (fun _ => None) (fun _ => None) (fun _ => None)
          "2026-01-01 12:00:00"
          ["Speed (m/s): "; msg_invalid_float; "Speed (m/s): "])).
Proof.
  intros w c.
  apply (X10_get_float_input_first_accepted (B := sample_builtins)
           "Speed (m/s): " "20" (Some 20%float) ["abc"] ["100"] c);
    reflexivity.
Defined.

(** X11.  When no line left on the input is blank or a number,
    [get_float_input] raises [EOFError], having read every line and written
    the prompt once more than there were lines. *)
Theorem X11_get_float_input_end_of_input
    {F : Type} {B : PyBuiltins F} (prompt : string) (c : Console) :
  forallb (fun l => is_none (float_entry l)) (stdin c) = true ->
  get_float_input prompt c
  = (Fail EOFError,
     with_stdin []
       (print_lines
          (flat_map (fun _ => [prompt; msg_invalid_float]) (stdin c) ++ [prompt])%list
          c)).
Proof. intros Hs. unfold get_float_input. now apply get_float_loop_eof. Qed.

Lemma X11_get_float_input_end_of_input_witness :
  let w := CalculationHistory.mkWorld (fun _ => None) (fun _ => None) (fun _ => None)
             "2026-01-01 12:00:00" [] in
  fst (get_float_input (B := sample_builtins) "Time (s): "
         (mkConsole ["abc"] [] w))
  = Fail EOFError.
Proof.
  intros w.
  rewrite (X11_get_float_input_end_of_input (B := sample_builtins) "Time (s): "
             (mkConsole ["abc"] [] w) eq_refl).
  reflexivity.
Defined.

(** X12.  [get_int_input] answers with the first line that [int] accepts
    and that lies within the bounds given: it has then read exactly the
    lines up to that one, and answered each rejected line with the message
    for an invalid integer or for the bound it misses. *)
Theorem X12_get_int_input_first_accepted
    {F : Type} {B : PyBuiltins F}
    (prompt line : string) (lo hi : option Z) (v : Z)
    (skipped rest : list string) (c : Console) :
  stdin c = (skipped ++ line :: rest)%list ->
  forallb (fun l => is_none (int_entry lo hi l)) skipped = true ->
  int_entry lo hi line = Some v ->
  get_int_input prompt lo hi c
  = (Done v,
     with_stdin rest
       (print_lines
          (flat_map (fun l => [prompt; int_complaint lo hi l]) skipped
           ++ [prompt])%list
          c)).
Proof.
  intros E Hs Hv. unfold get_int_input. rewrite E.
  now apply get_int_loop_accepts.
Qed.

Lemma X12_get_int_input_first_accepted_witness :
  let w := CalculationHistory.mkWorld (fun _ => None) (fun _ => None) (fun _ => None)
             "2026-01-01 12:00:00" [] in
  let c := mkConsole ["7"; "x"; "2"; "1"] [] w in
  fst (get_int_input (B := sample_builtins) "Enter your choice: "
         (Some 0%Z) (Some 3%Z) c)
  = Done 2%Z.
Proof.
  intros w c.
  rewrite (X12_get_int_input_first_accepted (B := sample_builtins)
             "Enter your choice: " "2" (Some 0%Z) (Some 3%Z) 2%Z
             ["7"; "x"] ["1"] c eq_refl eq_refl eq_refl).
  reflexivity.
Defined.

(** X13.  A value that [get_int_input] returns is within the bounds it was
    given, and at least one line was read for it; and the only exception
    that leaves [get_int_input] is the [EOFError] of an exhausted input.  In
    both cases no file is touched. *)
Theorem X13_get_int_input_bounds
    {F : Type} {B : PyBuiltins F}
    (prompt : string) (lo hi : option Z) (c : Console) :
  let r := fst (get_int_input prompt lo hi c) in
  let c' := snd (get_int_input prompt lo hi c) in
  match r with
  | Done v =>
      (forall l, lo = Some l -> (l <= v)%Z) /\
      (forall h, hi = Some h -> (v <= h)%Z) /\
      length (stdin c') < length (stdin c)
  | Fail e => e = EOFError /\ stdin c' = []
  end /\
  CalculationHistory.file (world c') = CalculationHistory.file (world c).
Proof.
  cbn. unfold get_int_input.
  destruct (get_int_loop prompt lo hi (stdin c) c) as [r c'] eqn:E. cbn.
  apply get_int_loop_step in E.
  destruct E as [(_ & _ & Hf & _) L]. split; [|exact Hf].
  destruct r as [v|e]; [|exact L].
  destruct L as (L1 & L2 & L3 & _). repeat split; [| |exact L1].
  - intros l ->. cbn in L2. lia.
  - intros h ->. cbn in L3. lia.
Qed.


(** ** Steps that keep a relation *)

Section StepFacts.
Context {S : Type} (R : S -> S -> Prop).
Hypothesis R_refl : forall s, R s s.
Hypothesis R_trans : forall s1 s2 s3, R s1 s2 -> R s2 s3 -> R s1 s3.

Lemma io_ok_ret {A : Type} (a : A) : io_ok R (io_ret a).
Proof. intros s r s' [= <- <-]. split; [apply R_refl | discriminate]. Qed.

Lemma io_ok_bind {A B : Type} (m : IOS S A) (k : A -> IOS S B) :
  io_ok R m -> (forall a, io_ok R (k a)) -> io_ok R (io_bind m k).
Proof.
  intros Hm Hk s r s'. unfold io_bind.
  destruct (m s) as [[a|e] s1] eqn:E; intros H.
  - destruct (Hm _ _ _ E) as [R1 _]. destruct (Hk a _ _ _ H) as [R2 F2].
    split; [eapply R_trans; eassumption | exact F2].
  - injection H as <- <-. destruct (Hm _ _ _ E) as [R1 F1].
    split; [exact R1 | intros e' [= <-]; now apply F1].
Qed.

Lemma io_ok_if {A : Type} (b : bool) (m1 m2 : IOS S A) :
  io_ok R m1 -> io_ok R m2 -> io_ok R (if b then m1 else m2).
Proof. now destruct b. Qed.

End StepFacts.

Section AppFacts.
Context {F : Type} {A : Arith F} {P : PyFloatOps F} {B : PyBuiltins F}
  {J : Json F}.
Local Open Scope list_scope.

Lemma with_stdin_self (c : Console) : with_stdin (stdin c) c = c.
Proof. now destruct c. Qed.

Lemma io_ok_print (s : string) : io_ok console_step (io_print s).
Proof.
  intros c r c' [= <- <-]. split; [apply console_step_write | discriminate].
Qed.

Lemma io_ok_input (prompt : string) : io_ok console_step (input prompt).
Proof.
  intros c r c'. unfold input. cbn.
  destruct (stdin c) as [|line rest] eqn:E; intros [= <- <-].
  - split; [apply console_step_write | now intros e [= <-]].
  - split; [|discriminate].
    apply console_step_read with (line := line) (rest := rest); [exact E|].
    exact (console_step_write prompt (with_stdin rest c)).
Qed.

Lemma io_ok_get_float_input (prompt : string) :
  io_ok console_step (get_float_input prompt).
Proof.
  intros c r c' H. apply get_float_loop_step in H.
  rewrite with_stdin_self in H. destruct H as [K L]. split; [exact K|].
  intros e ->. apply L.
Qed.

Lemma io_ok_get_int_input (prompt : string) (lo hi : option Z) :
  io_ok console_step (get_int_input prompt lo hi).
Proof.
  intros c r c' H. apply get_int_loop_step in H.
  rewrite with_stdin_self in H. destruct H as [K L]. split; [exact K|].
  intros e ->. apply L.
Qed.

End AppFacts.

Ltac console_steps :=
  repeat first
    [ apply io_ok_bind; [exact console_step_trans | | intro]
    | apply io_ok_ret; exact console_step_refl
    | apply io_ok_print
    | apply io_ok_input
    | apply io_ok_get_float_input
    | apply io_ok_get_int_input ].

Section InputsFacts.
Context {F : Type} {A : Arith F} {P : PyFloatOps F} {B : PyBuiltins F}
  {J : Json F}.

Lemma io_ok_get_inputs (k : Kind) : io_ok console_step (get_inputs (F := F) k).
Proof. destruct k; unfold get_inputs; console_steps. Qed.

Lemma get_inputs_kind (k : Kind) (c c' : Console) (i : CalcInputs F) :
  get_inputs k c = (Done i, c') -> kind_of i = k.
Proof.
  destruct k; unfold get_inputs, io_bind, io_print, io_ret;
    repeat match goal with
    | |- context [get_float_input ?p ?x] =>
        destruct (get_float_input p x) as [[?|?] ?]
    end; intros H; try discriminate H; now injection H as <- <-.
Qed.

End InputsFacts.

Section RunFacts.
Context {F : Type} {A : Arith F} {P : PyFloatOps F} {B : PyBuiltins F}
  {J : Json F}.
Local Open Scope list_scope.

Lemma display_items_motion_step (r : Results F) :
  forall c res c', display_items_motion r c = (res, c') -> console_step c c'.
Proof.
  induction r as [|[key v] r IH]; intros c res c'; cbn.
  - intros [= <- <-]. apply console_step_refl.
  - unfold io_bind, io_lift, io_print.
    destruct v; cbn; [|intros [= <- <-]; apply console_step_refl].
    intros H. apply IH in H.
    eapply console_step_trans; [apply console_step_write | exact H].
Qed.

Lemma display_items_formula_step (r : Results F) :
  forall c res c', display_items_formula r c = (res, c') -> console_step c c'.
Proof.
  induction r as [|[key v] r IH]; intros c res c'; cbn.
  - intros [= <- <-]. apply console_step_refl.
  - unfold io_bind, io_lift, io_print, io_ret.
    destruct (negb (String.eqb key "formula")); cbn; [|apply IH].
    destruct v; cbn; [|intros [= <- <-]; apply console_step_refl].
    intros H. apply IH in H.
    eapply console_step_trans; [apply console_step_write | exact H].
Qed.

Lemma display_results_step (k : Kind) (r : Results F) (c c' : Console) res :
  display_results k r c = (res, c') -> console_step c c'.
Proof.
  destruct k; unfold display_results, io_bind, io_print; intros H.
  - apply display_items_motion_step in H.
    eapply console_step_trans; [apply console_step_write | exact H].
  - apply display_items_formula_step in H.
    eapply console_step_trans; [apply console_step_write|].
    eapply console_step_trans; [apply console_step_write | exact H].
  - apply display_items_formula_step in H.
    eapply console_step_trans; [apply console_step_write|].
    eapply console_step_trans; [apply console_step_write | exact H].
Qed.

(** What a solver returns can be displayed. *)
Lemma calculate_of_displays (i : CalcInputs F) (r : Results F) (c : Console) :
  calculate_of i = Ok r ->
  exists c', display_results (kind_of i) r c = (Done tt, c').
Proof.
  destruct i as [i|i|i]; split_options i; cbn;
    unfold Motion.calculate, Motion.solve, EquationOfMotion.calculate,
      EquationOfMotion.solve, FreeFall.calculate, FreeFall.solve;
    cbn -[py_pow2]; unfold_branches; intros H; split_tests; try discriminate H;
    injection H as <-; eexists; reflexivity.
Qed.

Lemma tick_step (c : Console) :
  stdin (tick c) = stdin c /\
  CalculationHistory.file (world (tick c)) = CalculationHistory.file (world c) /\
  CalculationHistory.read_error (world (tick c))
    = CalculationHistory.read_error (world c) /\
  CalculationHistory.write_error (world (tick c))
    = CalculationHistory.write_error (world c) /\
  CalculationHistory.stdout (world (tick c))
    = CalculationHistory.stdout (world c) /\
  CalculationHistory.now (world (tick c)) = next_reading c.
Proof. unfold tick, next_reading. destruct (clock c); now repeat split. Qed.

(** The outcome of [run], by what was read and what the solver answers. *)
Lemma run_outcome (k : Kind) (s : App F) :
  exists s',
    run k s = (Done tt, s') /\
    (exists consumed, stdin (console s) = consumed ++ stdin (console s')) /\
    CalculationHistory.file (world (console s'))
      = CalculationHistory.file (world (console s)) /\
    CalculationHistory.read_error (world (console s'))
      = CalculationHistory.read_error (world (console s)) /\
    CalculationHistory.write_error (world (console s'))
      = CalculationHistory.write_error (world (console s)) /\
    CalculationHistory.filename (app_history s')
      = CalculationHistory.filename (app_history s) /\
    CalculationHistory.history (app_history s') = history_after_run k s.
Proof.
  unfold history_after_run, run, io_try, io_bind, on_console, on_history_try,
    io_lift.
  destruct (get_inputs k (console s)) as [[i|e] c1] eqn:E1.
  - pose proof (get_inputs_kind _ _ _ _ E1) as Hk.
    destruct (io_ok_get_inputs _ _ _ _ E1)
      as [(S1 & K1 & F1 & R1 & O1 & N1 & _) _].
    destruct (calculate_of i) as [r|e] eqn:E2; cbn.
    + destruct (calculate_of_displays i r c1 E2) as [c2 E3].
      rewrite Hk in E3. rewrite E3. cbn.
      destruct (display_results_step _ _ _ _ _ E3)
        as ([l2 S2] & K2 & F2 & R2 & O2 & N2 & _).
      destruct (tick_step c2) as (T1 & T2 & T3 & T4 & _ & T5).
      destruct S1 as [l1 S1].
      assert (St : stdin (console s) = (l1 ++ l2) ++ stdin (tick c2))
        by now rewrite S1, S2, T1, app_assoc.
      assert (Nx : CalculationHistory.now (world (tick c2))
                   = next_reading (console s)).
      { rewrite T5. unfold next_reading. now rewrite K2, K1, N2, N1. }
      unfold CalculationHistory.add_calculation.
      destruct (CalculationHistory.history (app_history s)) eqn:Eh;
        cbn; eexists; (split; [reflexivity|]); cbn;
        repeat split; try congruence; try (now exists (l1 ++ l2)).
    + eexists. split; [reflexivity|]. cbn. repeat split; auto.
  - destruct (io_ok_get_inputs _ _ _ _ E1)
      as [(S1 & K1 & F1 & R1 & O1 & N1 & _) _].
    eexists. split; [reflexivity|]. cbn. repeat split; auto.
Qed.

End RunFacts.

(** ** The assistant's steps *)

Section AssistantFacts.
Context {F : Type} {A : Arith F} {P : PyFloatOps F} {B : PyBuiltins F}
  {J : Json F}.
Local Open Scope list_scope.

Lemma appended_refl (h : PyObj F) : appended h h.
Proof. now left. Qed.

Lemma appended_trans (h1 h2 h3 : PyObj F) :
  appended h1 h2 -> appended h2 h3 -> appended h1 h3.
Proof.
  intros [-> | (l1 & n1 & -> & ->)] [-> | (l2 & n2 & E & ->)].
  - now left.
  - right. now exists l2, n2.
  - right. now exists l1, n1.
  - injection E as <-. right. exists l1, (n1 ++ n2). now rewrite app_assoc.
Qed.

Lemma app_quiet_step_refl (s : App F) : app_quiet_step s s.
Proof. repeat split; [now exists [] | apply appended_refl]. Qed.

Lemma app_quiet_step_trans (s1 s2 s3 : App F) :
  app_quiet_step s1 s2 -> app_quiet_step s2 s3 -> app_quiet_step s1 s3.
Proof.
  intros ([l1 E1] & R1 & O1 & N1 & H1 & F1) ([l2 E2] & R2 & O2 & N2 & H2 & F2).
  repeat split; try congruence.
  - exists (l1 ++ l2). now rewrite E1, E2, app_assoc.
  - eapply appended_trans; eassumption.
Qed.

Lemma app_step_refl (s : App F) : app_step s s.
Proof.
  split; [now exists []|].
  split; [reflexivity | split; [reflexivity | split; [reflexivity|]]].
  intros _. split; [apply appended_refl | reflexivity].
Qed.

Lemma forallb_suffix {X : Type} (p : X -> bool) (l1 l2 : list X) :
  forallb p (l1 ++ l2) = true -> forallb p l2 = true.
Proof. rewrite forallb_app. intros H. now apply andb_prop in H. Qed.

Lemma app_step_trans (s1 s2 s3 : App F) :
  app_step s1 s2 -> app_step s2 s3 -> app_step s1 s3.
Proof.
  intros ([l1 E1] & R1 & O1 & N1 & C1) ([l2 E2] & R2 & O2 & N2 & C2).
  split; [|split; [|split; [|split]]]; try congruence.
  - exists (l1 ++ l2). now rewrite E1, E2, app_assoc.
  - intros Y. destruct (C1 Y) as [H1 F1].
    rewrite E1 in Y. apply forallb_suffix in Y.
    destruct (C2 Y) as [H2 F2]. split; [|congruence].
    eapply appended_trans; eassumption.
Qed.

Lemma app_quiet_is_step (s s' : App F) : app_quiet_step s s' -> app_step s s'.
Proof.
  intros (E & R & O & N & H & Fl). split; [|split; [|split; [|split]]]; auto.
Qed.

Lemma io_ok_weaken {S X : Type} (R R' : S -> S -> Prop) (m : IOS S X) :
  (forall s s', R s s' -> R' s s') -> io_ok R m -> io_ok R' m.
Proof. intros W H s r s' E. destruct (H _ _ _ E). split; auto. Qed.

(** A console step is a quiet step of the assistant. *)
Lemma on_console_quiet {X : Type} (m : IO X) :
  io_ok console_step m -> io_ok (app_quiet_step (F := F)) (on_console m).
Proof.
  intros H s r s'. unfold on_console.
  destruct (m (console s)) as [r1 c1] eqn:E. intros [= <- <-].
  destruct (H _ _ _ E) as [(S1 & K1 & F1 & R1 & O1 & N1 & _) Fl].
  split; [|exact Fl]. repeat split; cbn; auto.
  apply appended_refl.
Qed.

Lemma history_after_run_appended (k : Kind) (s : App F) :
  appended (CalculationHistory.history (app_history s)) (history_after_run k s).
Proof.
  unfold history_after_run.
  destruct (get_inputs k (console s)) as [[i|e] c1]; [|now left].
  destruct (calculate_of i) as [r|e]; [|now left].
  destruct (CalculationHistory.history (app_history s)); try (now left).
  right. eexists _, _. split; reflexivity.
Qed.

Lemma run_quiet (k : Kind) : io_ok app_quiet_step (run k).
Proof.
  intros s r s' E.
  destruct (run_outcome k s) as (s1 & E1 & S1 & F1 & R1 & O1 & N1 & H1).
  rewrite E1 in E. injection E as <- <-.
  split; [|discriminate]. repeat split; eauto.
  rewrite H1. apply history_after_run_appended.
Qed.

(** A bound step whose continuation is only good for the values the first
    step can give. *)
Lemma io_ok_bind_values {S X Y : Type} (R : S -> S -> Prop) (Q : X -> Prop)
    (m : IOS S X) (k : X -> IOS S Y) :
  (forall s1 s2 s3, R s1 s2 -> R s2 s3 -> R s1 s3) ->
  io_ok R m ->
  (forall s a s', m s = (Done a, s') -> Q a) ->
  (forall a, Q a -> io_ok R (k a)) ->
  io_ok R (io_bind m k).
Proof.
  intros Rt Hm HQ Hk s r s'. unfold io_bind.
  destruct (m s) as [[a|e] s1] eqn:E; intros H.
  - destruct (Hm _ _ _ E) as [R1 _].
    destruct (Hk a (HQ _ _ _ E) _ _ _ H) as [R2 F2].
    split; [eapply Rt; eassumption | exact F2].
  - injection H as <- <-. destruct (Hm _ _ _ E) as [R1 F1].
    split; [exact R1 | intros e' [= <-]; now apply F1].
Qed.

Lemma calculators_in_range (v : Z) :
  (1 <= v <= 3)%Z -> exists k, calculators v = Some k.
Proof.
  intros H. assert (v = 1 \/ v = 2 \/ v = 3)%Z as [-> | [-> | ->]] by lia;
    eexists; reflexivity.
Qed.

Lemma get_int_input_range (prompt : string) (lo hi v : Z) (c c' : Console) :
  get_int_input prompt (Some lo) (Some hi) c = (Done v, c') ->
  (lo <= v <= hi)%Z /\ length (stdin c') < length (stdin c).
Proof.
  intros H. apply get_int_loop_step in H.
  destruct H as [_ (L1 & L2 & L3 & _)]. cbn in L2, L3. split; [lia | exact L1].
Qed.

Ltac quiet_steps :=
  repeat first
    [ apply io_ok_bind; [exact app_quiet_step_trans | | intro]
    | apply io_ok_ret; exact app_quiet_step_refl
    | apply on_console_quiet
    | apply io_ok_print
    | apply io_ok_input
    | apply io_ok_get_int_input
    | apply run_quiet ].

Lemma show_motion_menu_quiet : io_ok app_quiet_step show_motion_menu.
Proof.
  unfold show_motion_menu.
  do 4 (apply io_ok_bind; [exact app_quiet_step_trans | quiet_steps | intro]).
  apply io_ok_bind_values with (Q := fun v => (1 <= v <= 3)%Z);
    [exact app_quiet_step_trans | quiet_steps | |].
  - intros s v s'. unfold on_console.
    destruct (get_int_input "Enter your choice: " (Some 1%Z) (Some 3%Z) (console s))
      as [r c1] eqn:E.
    intros [= -> <-]. now apply get_int_input_range in E.
  - intros v Hv. destruct (calculators_in_range v Hv) as [k ->].
    apply run_quiet.
Qed.

End AssistantFacts.

Section KeepFacts.
Context {S : Type} (R : S -> S -> Prop).
Hypothesis R_refl : forall s, R s s.
Hypothesis R_trans : forall s1 s2 s3, R s1 s2 -> R s2 s3 -> R s1 s3.

Lemma io_keeps_ret {A : Type} (a : A) : io_keeps R (io_ret a).
Proof. intros s r s' [= <- <-]. apply R_refl. Qed.

Lemma io_keeps_raise {A : Type} (e : IOExn) : io_keeps R (io_raise (A := A) e).
Proof. intros s r s' [= <- <-]. apply R_refl. Qed.

Lemma io_keeps_of {A : Type} (x : IOResult A) : io_keeps R (io_of x).
Proof. intros s r s' [= <- <-]. apply R_refl. Qed.

Lemma io_keeps_bind {A B : Type} (m : IOS S A) (k : A -> IOS S B) :
  io_keeps R m -> (forall a, io_keeps R (k a)) -> io_keeps R (io_bind m k).
Proof.
  intros Hm Hk s r s'. unfold io_bind.
  destruct (m s) as [[a|e] s1] eqn:E; intros H.
  - eapply R_trans; [exact (Hm _ _ _ E) | exact (Hk a _ _ _ H)].
  - injection H as <- <-. exact (Hm _ _ _ E).
Qed.

Lemma io_keeps_if {A : Type} (b : bool) (m1 m2 : IOS S A) :
  io_keeps R m1 -> io_keeps R m2 -> io_keeps R (if b then m1 else m2).
Proof. now destruct b. Qed.

Lemma io_ok_keeps {A : Type} (m : IOS S A) : io_ok R m -> io_keeps R m.
Proof. intros H s r s' E. now destruct (H _ _ _ E). Qed.

End KeepFacts.

(** Showing the history only prints: it keeps every relation that [print]
    keeps. *)
Section DisplayKeeps.
Context {F : Type} {A : Arith F} {B : PyBuiltins F}.
Variable R : Console -> Console -> Prop.
Hypothesis R_refl : forall c, R c c.
Hypothesis R_trans : forall c1 c2 c3, R c1 c2 -> R c2 c3 -> R c1 c3.
Hypothesis R_print : forall s, io_keeps R (io_print s).

Ltac keep_steps :=
  repeat first
    [ apply io_keeps_bind; [exact R_trans | | intro]
    | apply io_keeps_ret; exact R_refl
    | apply io_keeps_raise; exact R_refl
    | apply io_keeps_of; exact R_refl
    | apply R_print ].

Lemma display_entry_keeps (entry : PyObj F) : io_keeps R (display_entry entry).
Proof. unfold display_entry. keep_steps. Qed.

Lemma display_entries_keeps (entries : list (PyObj F)) :
  io_keeps R (display_entries entries).
Proof.
  induction entries as [|entry later IH]; cbn [display_entries].
  - apply io_keeps_ret. exact R_refl.
  - apply io_keeps_bind; [exact R_trans | | intro; exact IH].
    apply display_entry_keeps.
Qed.

Lemma display_history_keeps (h : CalculationHistory.t F) (limit : Z) :
  io_keeps R (display_history h limit).
Proof.
  unfold display_history.
  apply io_keeps_if; [apply R_print|].
  apply io_keeps_bind; [exact R_trans | | intro n].
  { apply io_keeps_of. exact R_refl. }
  apply io_keeps_bind; [exact R_trans | apply R_print | intro].
  destruct (CalculationHistory.history h); keep_steps.
  - apply io_keeps_if; keep_steps.
  - apply display_entries_keeps.
Qed.

End DisplayKeeps.

Section LoopFacts.
Context {F : Type} {A : Arith F} {P : PyFloatOps F} {B : PyBuiltins F}
  {J : Json F}.
Local Open Scope list_scope.

Lemma print_lines_step (lines : list string) :
  forall c : Console, console_step c (print_lines lines c).
Proof.
  induction lines as [|l ls IH]; intros c; cbn; [apply console_step_refl|].
  eapply console_step_trans; [apply console_step_write | apply IH].
Qed.

Lemma display_history_step (h : CalculationHistory.t F) (limit : Z) :
  io_keeps console_step (display_history h limit).
Proof.
  apply display_history_keeps;
    [exact console_step_refl | exact console_step_trans|].
  intros s. apply io_ok_keeps, io_ok_print.
Qed.

Lemma io_keeps_print (s : string) : io_keeps console_step (io_print s).
Proof. apply io_ok_keeps, io_ok_print. Qed.

Lemma show_main_menu_outcome (c c' : Console) (r : IOResult Z) :
  show_main_menu c = (r, c') ->
  console_step c c' /\
  match r with
  | Done v => (0 <= v <= 3)%Z /\ length (stdin c') < length (stdin c)
  | Fail e => e = EOFError
  end.
Proof.
  intros H.
  assert (K : io_ok console_step (show_main_menu (F := F)))
    by (unfold show_main_menu; console_steps).
  destruct (K _ _ _ H) as [K1 K2]. split; [exact K1|].
  destruct r as [v|e]; [|now apply K2].
  unfold show_main_menu, io_bind, io_print in H. cbn in H.
  apply get_int_loop_step in H. destruct H as [_ (L1 & L2 & L3 & _)].
  cbn in L2, L3. split; [lia | exact L1].
Qed.

(** Asking for the confirmation and clearing. *)
Lemma confirm_and_clear_step :
  io_ok (app_step (F := F))
    (confirm <- on_console
       (input "Are you sure you want to clear history? (yes/no): ") ;;
     if String.eqb (str_lower confirm) "yes"
     then on_history CalculationHistory.clear_history
     else io_ret tt).
Proof.
  intros s r s'. unfold io_bind, on_console, input. cbn.
  destruct (stdin (console s)) as [|line rest] eqn:E.
  - intros [= <- <-]. split; [|now intros e [= <-]].
    split; [exists []; now rewrite E|].
    split; [reflexivity | split; [reflexivity | split; [reflexivity|]]].
    intros _. split; [apply appended_refl | reflexivity].
  - destruct (String.eqb (str_lower line) "yes") eqn:Y.
    + unfold on_history. cbn. intros [= <- <-]. split; [|discriminate].
      split; [exists [line]; now rewrite E|].
      split; [|split; [|split; [reflexivity|]]].
      * unfold CalculationHistory.save_history. cbn.
        now destruct (CalculationHistory.write_error (world (console s)) _).
      * unfold CalculationHistory.save_history. cbn.
        now destruct (CalculationHistory.write_error (world (console s)) _).
      * rewrite E. cbn. unfold confirms. rewrite Y. discriminate.
    + intros [= <- <-]. split; [|discriminate].
      split; [exists [line]; now rewrite E|].
      split; [reflexivity | split; [reflexivity | split; [reflexivity|]]].
      intros _. split; [apply appended_refl | reflexivity].
Qed.

Lemma console_is_quiet (s : App F) (c : Console) :
  console_step (console s) c -> app_quiet_step s (mkApp (app_history s) c).
Proof.
  intros (S1 & K1 & F1 & R1 & O1 & N1 & _). repeat split; cbn; auto.
  apply appended_refl.
Qed.

Lemma on_console_keeps {X : Type} (m : IO X) :
  io_keeps console_step m -> io_keeps (app_step (F := F)) (on_console m).
Proof.
  intros H s r s'. unfold on_console.
  destruct (m (console s)) as [r1 c1] eqn:E. intros [= <- <-].
  apply app_quiet_is_step, console_is_quiet. exact (H _ _ _ E).
Qed.

Lemma show_history_step :
  io_keeps (app_step (F := F))
    (fun s => on_console (display_history (app_history s) 10) s).
Proof.
  intros s r s' E.
  exact (on_console_keeps _ (display_history_step (app_history s) 10) _ _ _ E).
Qed.

(** What follows the choice in the body of the loop. *)
Lemma after_choice_step (v : Z) :
  io_keeps (app_step (F := F))
    (if (v =? 0)%Z
     then on_console (io_print "Thank you for using Physics Assistant") ;;;
          on_console (io_print "Your calculation history has been saved") ;;;
          io_ret Break
     else
       (if (v =? 1)%Z then show_motion_menu
        else if (v =? 2)%Z then
          fun s => on_console (display_history (app_history s) 10) s
        else if (v =? 3)%Z then
          confirm <- on_console
            (input "Are you sure you want to clear history? (yes/no): ") ;;
          if String.eqb (str_lower confirm) "yes"
          then on_history CalculationHistory.clear_history
          else io_ret tt
        else io_ret tt) ;;;
       on_console (input "Press Enter to continue...") ;;;
       io_ret Continue).
Proof.
  apply io_keeps_if.
  - apply io_keeps_bind; [exact app_step_trans
                         | apply on_console_keeps, io_keeps_print | intro].
    apply io_keeps_bind; [exact app_step_trans
                         | apply on_console_keeps, io_keeps_print | intro].
    apply io_keeps_ret. exact app_step_refl.
  - apply io_keeps_bind; [exact app_step_trans | | intro].
    + apply io_keeps_if.
      { apply io_ok_keeps. apply (io_ok_weaken app_quiet_step app_step);
          [exact app_quiet_is_step | apply show_motion_menu_quiet]. }
      apply io_keeps_if; [apply show_history_step|].
      apply io_keeps_if; [apply io_ok_keeps, confirm_and_clear_step|].
      apply io_keeps_ret. exact app_step_refl.
    + apply io_keeps_bind; [exact app_step_trans
                           | apply on_console_keeps, io_ok_keeps, io_ok_input
                           | intro].
      apply io_keeps_ret. exact app_step_refl.
Qed.

Lemma suffix_length (s s' : App F) :
  app_step s s' -> length (stdin (console s')) <= length (stdin (console s)).
Proof. intros ([l E] & _). rewrite E, length_app. lia. Qed.

(** The body of the loop: any exception may leave it (showing a history
    that is not a list of entries raises), but a turn that goes on has read
    a line. *)
Lemma loop_body_outcome (s s' : App F) (r : IOResult Ctl) :
  loop_body s = (r, s') ->
  app_step s s' /\
  match r with
  | Done Continue => length (stdin (console s')) < length (stdin (console s))
  | _ => True
  end.
Proof.
  unfold loop_body. unfold io_bind at 1. unfold on_console at 1.
  destruct (show_main_menu (console s)) as [[v|e] c1] eqn:E;
    apply show_main_menu_outcome in E; destruct E as [K L].
  - assert (K' : app_step s (mkApp (app_history s) c1))
      by now apply app_quiet_is_step, console_is_quiet.
    intros H.
    assert (G : app_step (mkApp (app_history s) c1) s')
      by exact (after_choice_step v _ _ _ H).
    split; [eapply app_step_trans; eassumption|].
    destruct r as [[|]|e]; [exact I | | exact I].
    apply suffix_length in G. cbn in G. lia.
  - intros [= <- <-]. split; [|exact I].
    now apply app_quiet_is_step, console_is_quiet.
Qed.

Lemma loop_turn_outcome (s s' : App F) (r : IOResult Ctl) :
  loop_turn s = (r, s') ->
  app_step s s' /\
  match r with
  | Done Break => True
  | Done Continue => length (stdin (console s')) < length (stdin (console s))
  | Fail e => e = EOFError
  end.
Proof.
  unfold loop_turn, io_try.
  destruct (loop_body s) as [[ctl|e] s1] eqn:E;
    apply loop_body_outcome in E; destruct E as [K L].
  - intros [= <- <-]. split; [exact K|]. now destruct ctl.
  - unfold io_bind, on_console, io_print, input. cbn.
    destruct (stdin (console s1)) as [|line rest] eqn:E1.
    + intros [= <- <-]. split; [|reflexivity].
      eapply app_step_trans; [exact K|]. apply app_quiet_is_step.
      repeat split; cbn; [exists []; now rewrite E1 | apply appended_refl].
    + intros [= <- <-]. split.
      * eapply app_step_trans; [exact K|]. apply app_quiet_is_step.
        repeat split; cbn; [exists [line]; now rewrite E1 | apply appended_refl].
      * apply suffix_length in K. rewrite E1 in K. cbn in *. lia.
Qed.

Lemma main_loop_outcome (fuel : nat) :
  forall (s s' : App F) (r : IOResult unit),
    main_loop fuel s = Some (r, s') ->
    app_step s s' /\ (r = Done tt \/ r = Fail EOFError).
Proof.
  induction fuel as [|fuel IH]; intros s s' r; cbn; [discriminate|].
  destruct (loop_turn s) as [[[|]|e] s1] eqn:E;
    apply loop_turn_outcome in E; destruct E as [K L].
  - intros [= <- <-]. auto.
  - intros H. apply IH in H. destruct H as [K' L'].
    split; [eapply app_step_trans; eassumption | exact L'].
  - intros [= <- <-]. subst e. auto.
Qed.

Lemma main_loop_terminates (fuel : nat) :
  forall s : App F,
    length (stdin (console s)) < fuel ->
    exists r s', main_loop fuel s = Some (r, s').
Proof.
  induction fuel as [|fuel IH]; intros s H; [lia|]. cbn.
  destruct (loop_turn s) as [[[|]|e] s1] eqn:E; eauto.
  apply loop_turn_outcome in E. destruct E as [_ L].
  apply IH. lia.
Qed.

Lemma main_loop_more_fuel (fuel : nat) :
  forall (fuel' : nat) (s : App F) x,
    main_loop fuel s = Some x -> fuel <= fuel' -> main_loop fuel' s = Some x.
Proof.
  induction fuel as [|fuel IH]; intros fuel' s x; cbn; [discriminate|].
  intros H Hle. destruct fuel' as [|fuel']; [lia|]. cbn.
  destruct (loop_turn s) as [[[|]|e] s1]; auto.
  apply IH; [exact H | lia].
Qed.

End LoopFacts.

(** ** The orchestrator and the menus *)

(** X14.  [PhysicCalcution.run] never lets an exception out and writes no
    file.  It logs a calculation exactly when the inputs were read to the
    end, the solver returned a result and the history in memory is a list:
    then one entry is appended to the history, with the time of the clock's
    next reading, the name of the class as topic, the inputs as read and the
    result.  In every other case the history is unchanged: at the end of the
    input, on any error of the solver, and when the history is not a list
    (loaded from a file that held another JSON value), where [append] raises
    [AttributeError] inside the [try] and the calculation is not logged. *)
Theorem X14_run_logs_successful_calculations
    {F : Type} {A : Arith F} {P : PyFloatOps F} {B : PyBuiltins F}
    (k : Kind) (s : App F) :
  exists s',
    run k s = (Done tt, s') /\
    (exists consumed,
       stdin (console s) = (consumed ++ stdin (console s'))%list) /\
    CalculationHistory.file (world (console s'))
      = CalculationHistory.file (world (console s)) /\
    CalculationHistory.read_error (world (console s'))
      = CalculationHistory.read_error (world (console s)) /\
    CalculationHistory.write_error (world (console s'))
      = CalculationHistory.write_error (world (console s)) /\
    CalculationHistory.filename (app_history s')
      = CalculationHistory.filename (app_history s) /\
    CalculationHistory.history (app_history s')
    = match get_inputs k (console s) with
      | (Done i, _) =>
          match calculate_of i, CalculationHistory.history (app_history s) with
          | Ok r, PList l =>
              PList (l ++ [CalculationHistory.new_entry
                             (next_reading (console s)) (class_name k)
                             (obj_of_inputs (inputs_dict i))
                             (obj_of_results r)])
          | _, _ => CalculationHistory.history (app_history s)
          end
      | (Fail _, _) => CalculationHistory.history (app_history s)
      end.
Proof. apply run_outcome. Qed.

(** X15.  In the motion menu the choice read is always 1, 2 or 3, so the
    lookup in [calculators] never raises [KeyError]: the menu ends normally
    or with the [EOFError] of an exhausted input, and in both cases it has
    only read lines, written output and at most appended to the history. *)
Theorem X15_motion_menu_never_key_error
    {F : Type} {A : Arith F} {P : PyFloatOps F} {B : PyBuiltins F} (s : App F) :
  let r := fst (show_motion_menu s) in
  let s' := snd (show_motion_menu s) in
  (r = Done tt \/ r = Fail EOFError) /\ app_quiet_step s s'.
Proof.
  intros r s'. subst r s'.
  destruct (show_motion_menu s) as [r s'] eqn:E. cbn [fst snd].
  destruct (show_motion_menu_quiet _ _ _ E) as [K L]. split; [|exact K].
  destruct r as [[]|e]; [now left | right]. now rewrite (L e eq_refl).
Qed.

(** ** A session *)

Section SessionFacts.
Context {F : Type} {A : Arith F} {P : PyFloatOps F} {B : PyBuiltins F}
  {J : Json F}.

(** A session that entered the [with] block is the loop between loading and
    saving. *)
Lemma run_session_inv (fuel : nat) (c : Console) r (s : App F) :
  run_session fuel c = Some (Ended r s) ->
  exists h w s1,
    CalculationHistory.init default_filename (world c) = (Done h, w) /\
    main_loop fuel (mkApp h (mkConsole (stdin c) (clock c) w)) = Some (r, s1) /\
    app_history s = app_history s1 /\
    stdin (console s) = stdin (console s1) /\
    world (console s)
    = CalculationHistory.exit (app_history s1) (world (console s1))
        match r with
        | Done _ => None
        | Fail e => Some (str_exn e)
        end.
Proof.
  unfold run_session.
  destruct (CalculationHistory.init default_filename (world c)) as [[h|e] w];
    [|discriminate].
  destruct (main_loop fuel _) as [[r1 s1]|] eqn:E; [|discriminate].
  intros [= <- <-]. exists h, w, s1. now repeat split.
Qed.

End SessionFacts.

(** X16.  A session ends: with more turns allowed than there are lines on
    the input, either the constructor of the history lets out an exception
    of [json.load] that it does not catch, before the [with] block is
    entered (a [UnicodeDecodeError] when the history file is not text in
    the expected encoding), or the main loop stops, by the choice 0 or, the
    input exhausted, with an [EOFError] that leaves [run].  No other
    exception leaves the loop (those raised while showing a history that is
    not a list of entries are caught by it), and allowing more turns
    changes nothing. *)
Theorem X16_session_ends
    {F : Type} {A : Arith F} {P : PyFloatOps F} {B : PyBuiltins F}
    {J : Json F} (fuel : nat) (c : Console) :
  length (stdin c) < fuel ->
  exists e,
    run_session fuel c = Some e /\
    match e with
    | CrashedAtStart x _ =>
        exists text,
          CalculationHistory.file (world c) default_filename = Some text /\
          json_load text = Uncaught x
    | Ended r _ => r = Done tt \/ r = Fail EOFError
    end /\
    (forall fuel', fuel <= fuel' -> run_session fuel' c = Some e).
Proof.
  intros H. unfold run_session.
  pose proof (init_facts default_filename (world c)) as I.
  destruct (CalculationHistory.init default_filename (world c)) as [[h|x] w].
  - destruct (main_loop_terminates fuel
                (mkApp h (mkConsole (stdin c) (clock c) w)) H) as (r & s1 & E).
    rewrite E. eexists. split; [reflexivity|]. split.
    + now destruct (main_loop_outcome _ _ _ _ E).
    + intros fuel' Hle. now rewrite (main_loop_more_fuel _ _ _ _ E Hle).
  - destruct I as (_ & text & Hf & _ & Hl).
    eexists. split; [reflexivity|]. split; [now exists text | reflexivity].
Qed.

Lemma X16_session_ends_witness :
  let c := mkConsole ["2"; ""] []
             (CalculationHistory.mkWorld (fun _ => None) (fun _ => None)
                (fun _ => None) "2026-01-01 12:00:00" []) in
  exists e,
    run_session (P := sample_ops) (B := sample_builtins) (J := sample_json) 3 c
    = Some e /\
    match e with
    | CrashedAtStart x _ =>
        exists text,
          CalculationHistory.file (world c) default_filename = Some text /\
          json_load (Json := sample_json) text = Uncaught x
    | Ended r _ => r = Done tt \/ r = Fail EOFError
    end /\
    (forall fuel', 3 <= fuel' ->
       run_session (P := sample_ops) (B := sample_builtins) (J := sample_json)
         fuel' c
       = Some e).
Proof.
  intros c.
  apply (X16_session_ends (P := sample_ops) (B := sample_builtins)
           (J := sample_json) 3 c).
  cbn. lia.
Defined.

(** X17.  However a session that entered the [with] block ends (choice 0,
    or end of input), if the history file can be opened for writing then at
    the end the file "physics_history.json" holds exactly what [json.dump]
    writes for the history in memory.  A session whose constructor raised
    has written no file and printed nothing. *)
Theorem X17_session_saves_history
    {F : Type} {A : Arith F} {P : PyFloatOps F} {B : PyBuiltins F}
    {J : Json F} (fuel : nat) (c : Console) (e : SessionEnd F) :
  run_session fuel c = Some e ->
  CalculationHistory.write_error (world c) default_filename = None ->
  match e with
  | Ended r s =>
      CalculationHistory.persisted (app_history s) (world (console s)) /\
      CalculationHistory.filename (app_history s) = default_filename
  | CrashedAtStart _ c' => c' = c
  end.
Proof.
  intros H Ho. destruct e as [x c' | r s].
  - unfold run_session in H.
    pose proof (init_facts default_filename (world c)) as I.
    destruct (CalculationHistory.init default_filename (world c)) as [[h|x'] w].
    + destruct (main_loop fuel _) as [[r1 s1]|]; discriminate H.
    + injection H as _ <-. destruct I as [-> _]. now destruct c.
  - apply run_session_inv in H.
    destruct H as (h & w & s1 & Ei & E & Hh & _ & Hw).
    apply main_loop_outcome in E.
    destruct E as [(_ & _ & O1 & N1 & _) _]. cbn in O1, N1.
    pose proof (init_facts default_filename (world c)) as I.
    rewrite Ei in I. destruct I as (I1 & _ & _ & _ & I2 & _).
    assert (Hn : CalculationHistory.filename (app_history s1) = default_filename)
      by congruence.
    split; [|congruence].
    rewrite Hh, Hw. apply exit_persists. rewrite Hn, O1, I2. exact Ho.
Qed.

Lemma X17_session_saves_history_witness :
  let c := mkConsole ["1"; "1"; "20"; ""; "100"; ""; "0"] ["2026-01-01 12:00:05"]
             (CalculationHistory.mkWorld (fun _ => None) (fun _ => None)
                (fun _ => None) "2026-01-01 12:00:00" []) in
  exists s,
    run_session (P := sample_ops) (B := sample_builtins) (J := sample_json) 8 c
    = Some (Ended (Done tt) s) /\
    CalculationHistory.history (app_history s)
    = PList [CalculationHistory.new_entry "2026-01-01 12:00:05" "Motion"
               (obj_of_inputs [("speed", Some 20%float); ("time", None);
                               ("distance", Some 100%float)])
               (obj_of_results [("time", VFloat 5%float)])] /\
    CalculationHistory.persisted (J := sample_json)
      (app_history s) (world (console s)).
Proof.
  intros c.
  destruct (run_session (P := sample_ops) (B := sample_builtins)
              (J := sample_json) 8 c) as [e|] eqn:E; [|discriminate E].
  pose proof (X17_session_saves_history (P := sample_ops)
                (B := sample_builtins) (J := sample_json) 8 c e E eq_refl) as H.
  vm_compute in E. injection E as <-.
  eexists. split; [reflexivity|]. split; [reflexivity | exact (proj1 H)].
Defined.

(** X18.  The history is never lost without the user's word: in a session
    that entered the [with] block and where no line of the input is a "yes"
    (in any case of letters), the history in memory at the end is the value
    that was loaded, followed by the entries added when it is a list; and
    if the history file can be opened for writing, it holds at the end what
    [json.dump] writes for that history, and every other file is as it
    was. *)
Theorem X18_session_keeps_history_without_yes
    {F : Type} {A : Arith F} {P : PyFloatOps F} {B : PyBuiltins F}
    {J : Json F} (fuel : nat) (c : Console) (r : IOResult unit) (s : App F) :
  run_session fuel c = Some (Ended r s) ->
  forallb (fun line => negb (confirms line)) (stdin c) = true ->
  CalculationHistory.write_error (world c) default_filename = None ->
  let loaded := CalculationHistory.loaded_value default_filename (world c) in
  let final := CalculationHistory.history (app_history s) in
  (final = loaded \/
   exists l new, loaded = PList l /\ final = PList (l ++ new)) /\
  CalculationHistory.file (world (console s)) default_filename
  = Some (json_dump final) /\
  (forall other, String.eqb other default_filename = false ->
     CalculationHistory.file (world (console s)) other
     = CalculationHistory.file (world c) other).
Proof.
  intros H Hy Ho loaded final. apply run_session_inv in H.
  destruct H as (h & w & s1 & Ei & E & Hh & _ & Hw).
  apply main_loop_outcome in E. destruct E as [(_ & _ & O1 & N1 & C1) _].
  cbn in O1, N1, C1. destruct (C1 Hy) as [Hn Hf].
  pose proof (init_facts default_filename (world c)) as I.
  rewrite Ei in I. destruct I as (I1 & I2 & I3 & _ & I4 & _).
  subst final loaded. rewrite Hh, <- I2.
  split; [exact Hn|].
  assert (Hopen : CalculationHistory.write_error (world (console s1))
                    (CalculationHistory.filename (app_history s1)) = None)
    by (rewrite O1, N1, I1, I4; exact Ho).
  assert (Hfile : CalculationHistory.file (world (console s))
    = fun n => if String.eqb n default_filename
               then Some (json_dump (CalculationHistory.history (app_history s1)))
               else CalculationHistory.file (world c) n).
  { rewrite Hw. unfold CalculationHistory.exit, CalculationHistory.save_history.
    rewrite Hopen. rewrite N1, I1.
    destruct r; cbn; now rewrite Hf, I3. }
  rewrite Hfile. split.
  - now rewrite String.eqb_refl.
  - intros other Hne. now rewrite Hne.
Qed.

Lemma X18_session_keeps_history_without_yes_witness :
  let entry := CalculationHistory.new_entry "2025-12-31 09:00:00" "FreeFall"
                 (obj_of_inputs [("final_velocity", None);
                                 ("height", Some 1%float);
                                 ("time", Some 2%float)])
                 (obj_of_results [("final_velocity", VFloat 19.6%float);
                                  ("formula", VStr "v = gt")]) in
  let json := {| json_dump := fun _ : PyObj float => "[...]";
                 json_load := fun _ => Loaded (PList [entry]) |} in
  let c := mkConsole ["3"; "no"; ""; "0"] []
             (CalculationHistory.mkWorld
                (fun n => if String.eqb n default_filename
                          then Some "[...]" else None)
                (fun _ => None) (fun _ => None) "2026-01-01 12:00:00" []) in
  exists s,
    run_session (P := sample_ops) (B := sample_builtins) (J := json) 5 c
    = Some (Ended (Done tt) s) /\
    CalculationHistory.history (app_history s) = PList [entry] /\
    CalculationHistory.file (world (console s)) default_filename
    = Some "[...]".
Proof.
  intros entry json c.
  destruct (run_session (P := sample_ops) (B := sample_builtins) (J := json)
              5 c) as [[x c' | r s]|] eqn:E;
    [vm_compute in E; discriminate E | | discriminate E].
  destruct (X18_session_keeps_history_without_yes (P := sample_ops)
              (B := sample_builtins) (J := json) 5 c r s E eq_refl eq_refl)
    as (_ & H2 & _).
  vm_compute in E. injection E as <- <-.
  eexists. split; [reflexivity | split; [reflexivity | exact H2]].
Defined.

(** ** What is displayed *)

Section DisplayFacts.
Context {F : Type} {A : Arith F} {P : PyFloatOps F} {B : PyBuiltins F}.
Local Open Scope list_scope.


Lemma print_lines_stdin (lines : list string) :
  forall c : Console, stdin (print_lines lines c) = stdin c.
Proof.
  induction lines as [|l ls IH]; intros c; [reflexivity|].
  change (print_lines (l :: ls) c) with (print_lines ls (write l c)).
  now rewrite IH.
Qed.







(** The lines a solver's result is displayed with. *)
Lemma calculate_of_display_lines (i : CalcInputs F) (r : Results F) (c : Console) :
  calculate_of i = Ok r ->
  exists key x,
    CalculationHistory.stdout (world (snd (display_results (kind_of i) r c)))
    = CalculationHistory.stdout (world c) ++
      match i with
      | MotionInputs _ =>
          ["====== Calculating ======";
           (str_capitalize key ++ ": " ++ format_2f x)%string]
      | _ =>
          ["CALCULATION RESULTS";
           ("Formula used: " ++ formula_text r)%string;
           (str_title (str_replace "_" " " key) ++ ": " ++ format_2f x)%string]
      end /\
    fst (display_results (kind_of i) r c) = Done tt /\
    dict_get r key = Some (VFloat x).
Proof.
  destruct i as [i|i|i]; split_options i; cbn;
    unfold Motion.calculate, Motion.solve, EquationOfMotion.calculate,
      EquationOfMotion.solve, FreeFall.calculate, FreeFall.solve;
    cbn -[py_pow2]; unfold_branches; intros H; split_tests; try discriminate H;
    injection H as <-;
    match goal with
    | |- context [(?k, VFloat ?v) :: _] => exists k, v
    end;
    (split; [cbn; rewrite <- ?app_assoc; reflexivity | split; reflexivity]).
Qed.

End DisplayFacts.

(** X19.  Displaying the result of a solver never fails, and prints the
    solved quantity once, formatted with two decimals under its capitalised
    name: after the heading for Motion, after the heading and the line
    "Formula used: ..." for the two other classes, the formula itself not
    being printed as a quantity. *)
Theorem X19_display_results_of_solver
    {F : Type} {A : Arith F} {P : PyFloatOps F} {B : PyBuiltins F}
    (i : CalcInputs F) (r : Results F) (c : Console) :
  calculate_of i = Ok r ->
  exists key x,
    CalculationHistory.stdout (world (snd (display_results (kind_of i) r c)))
    = (CalculationHistory.stdout (world c) ++
       match i with
       | MotionInputs _ =>
           ["====== Calculating ======";
            (str_capitalize key ++ ": " ++ format_2f x)%string]
       | _ =>
           ["CALCULATION RESULTS";
            ("Formula used: " ++ formula_text r)%string;
            (str_title (str_replace "_" " " key) ++ ": " ++ format_2f x)%string]
       end)%list /\
    fst (display_results (kind_of i) r c) = Done tt /\
    dict_get r key = Some (VFloat x).
Proof. apply calculate_of_display_lines. Qed.

Lemma X19_display_results_of_solver_witness :
  let c := mkConsole [] []
             (CalculationHistory.mkWorld (fun _ => None) (fun _ => None)
                (fun _ => None)
                "2026-01-01 12:00:00" []) in
  let i := FreeFallInputs
             (FreeFall.mkInputs None (Some 1%float) (Some 2%float)) in
  let r := [("final_velocity", VFloat 19.6%float); ("formula", VStr "v = gt")] in
  exists key x,
    CalculationHistory.stdout
      (world (snd (display_results (B := sample_builtins) (kind_of i) r c)))
    = ([] ++ ["CALCULATION RESULTS"; "Formula used: v = gt";
              (str_replace "_" " " key ++ ": " ++ "x.xx")%string])%list /\
    fst (display_results (B := sample_builtins) (kind_of i) r c) = Done tt /\
    dict_get r key = Some (VFloat x).
Proof.
  intros c i r.
  apply (X19_display_results_of_solver (P := sample_ops)
           (B := sample_builtins) i r c).
  reflexivity.
Defined.

Section DisplayHistoryFacts.
Context {F : Type} {A : Arith F} {B : PyBuiltins F}.
Local Open Scope list_scope.




End DisplayHistoryFacts.


(** ** The generator *)

Section GeneratorFacts.
Context {X : Type}.
Local Open Scope list_scope.

Lemma skipn_nth_error (data : list X) :
  forall (i : nat) (x : X),
    nth_error data i = Some x -> skipn i data = x :: skipn (S i) data.
Proof.
  induction data as [|y data IH]; intros [|i] x; cbn; try discriminate.
  - now intros [= ->].
  - intros H. now rewrite (IH i x H).
Qed.

(** Resuming after the yield of index [j] gives what is left of the list,
    each element with its index. *)
Lemma take_suspended (data : list X) :
  forall (k j : nat),
    S j + k = length data ->
    Generator.take (S k) (Generator.Suspended (length data) j) data
    = combine (seq (S j) k) (skipn (S j) data).
Proof.
  induction k as [|k IH]; intros j H.
  - cbn. unfold Generator.visit.
    destruct (Nat.ltb_spec (S j) (length data)); [lia | reflexivity].
  - change (Generator.take (S (S k)) (Generator.Suspended (length data) j) data)
      with (match Generator.visit (length data) (S j) data with
            | (Generator.Yield i x, g') => (i, x) :: Generator.take (S k) g' data
            | _ => []
            end).
    unfold Generator.visit.
    destruct (Nat.ltb_spec (S j) (length data)); [|lia].
    destruct (nth_error data (S j)) as [x|] eqn:E.
    + rewrite IH by lia. rewrite (skipn_nth_error data (S j) x E). reflexivity.
    + apply nth_error_None in E. lia.
Qed.

End GeneratorFacts.

(** X21.  Consumed to its end on a list that is not changed meanwhile,
    [custom_generator(data)] yields every element of [data] once, in order,
    each paired with its index counted from 0, and then stops: it is
    [enumerate(data)]. *)
Theorem X21_custom_generator_enumerates {X : Type} (data : list X) :
  Generator.to_list data = combine (seq 0 (length data)) data /\
  map snd (Generator.to_list data) = data /\
  map fst (Generator.to_list data) = seq 0 (length data).
Proof.
  assert (E : Generator.to_list data = combine (seq 0 (length data)) data).
  { unfold Generator.to_list. destruct data as [|x data]; [reflexivity|].
    change (Generator.take (S (length (x :: data))) Generator.Created (x :: data))
      with ((0, x) :: Generator.take (S (length data))
                        (Generator.Suspended (length (x :: data)) 0) (x :: data)).
    rewrite (take_suspended (x :: data) (length data) 0) by reflexivity.
    reflexivity. }
  rewrite E. clear E. split; [reflexivity|]. split.
  - generalize 0. induction data as [|x data IH]; intros n; cbn;
      [reflexivity | now rewrite IH].
  - generalize 0. induction data as [|x data IH]; intros n; cbn;
      [reflexivity | now rewrite IH].
Qed.

Section GeneratorSteps.
Context {X : Type}.

Lemma advance_suspended (data : list X) :
  forall k, k < length data ->
    Generator.advance (S k) Generator.Created data
    = Generator.Suspended (length data) k.
Proof.
  assert (G : forall k g, Generator.advance (S k) g data
                = snd (Generator.next (Generator.advance k g data) data)).
  { induction k as [|k IH]; intros g; [reflexivity|].
    change (Generator.advance (S (S k)) g data)
      with (Generator.advance (S k) (snd (Generator.next g data)) data).
    now rewrite IH. }
  induction k as [|k IH]; intros H.
  - cbn. unfold Generator.visit.
    destruct (Nat.ltb_spec 0 (length data)); [|lia].
    destruct (nth_error data 0) eqn:E; [reflexivity|].
    apply nth_error_None in E. lia.
  - rewrite G, IH by lia. cbn. unfold Generator.visit.
    destruct (Nat.ltb_spec (S k) (length data)); [|lia].
    destruct (nth_error data (S k)) eqn:E; [reflexivity|].
    apply nth_error_None in E. lia.
Qed.

End GeneratorSteps.

(** X22.  The generator reads the list anew at every step, but its length
    only once, when it starts.  After it has yielded the indices 0 to [k]
    of [data], a call of [next] on the list as changed since yields the
    element now at index [k + 1]; raises [IndexError], and finishes the
    generator, if the list has become too short for that index; and stops
    once [k + 1] reaches the original length, however long the list has
    become: elements appended meanwhile are never yielded. *)
Theorem X22_custom_generator_on_changed_list {X : Type}
    (data changed : list X) (k : nat) :
  k < length data ->
  Generator.next (Generator.advance (S k) Generator.Created data) changed
  = if Nat.ltb (S k) (length data) then
      match nth_error changed (S k) with
      | Some x => (Generator.Yield (S k) x,
                   Generator.Suspended (length data) (S k))
      | None => (Generator.IndexError, Generator.Finished)
      end
    else (Generator.StopIteration, Generator.Finished).
Proof.
  intros H. rewrite advance_suspended by exact H.
  unfold Generator.next, Generator.visit.
  destruct (Nat.ltb (S k) (length data)); [|reflexivity].
  now destruct (nth_error changed (S k)).
Qed.

Lemma X22_custom_generator_on_changed_list_witness :
  Generator.next
    (Generator.advance 2 Generator.Created ["a"; "b"; "c"]) ["a"; "b"]
  = (@Generator.IndexError string, Generator.Finished) /\
  Generator.next
    (Generator.advance 3 Generator.Created ["a"; "b"; "c"]) ["a"; "b"; "c"; "d"]
  = (@Generator.StopIteration string, Generator.Finished).
Proof.
  split.
  - rewrite (X22_custom_generator_on_changed_list ["a"; "b"; "c"] ["a"; "b"] 1)
      by (cbn; lia).
    reflexivity.
  - rewrite (X22_custom_generator_on_changed_list ["a"; "b"; "c"]
               ["a"; "b"; "c"; "d"] 2) by (cbn; lia).
    reflexivity.
Defined.
